(** * OneView: the KPI dashboard, its metric cards and the snapshot cache

  The development has two halves.

  - The React front end ([MetricCard.jsx], [DashboardPage.jsx],
    [CampaignChart.jsx], [LoginPage.jsx], [App.jsx], [services/api.js]) is
    embedded from its source: JavaScript values are a tagged union, numbers are
    IEEE-754 binary64 floats, a thrown exception is a [Throws] result, and
    the number-formatting built-ins of the JavaScript runtime
    ([parseFloat], [Number.prototype.toFixed], [Intl.NumberFormat], ...)
    are the fields of a [Runtime] record every formatting function takes.

  - The Flask back end (aggregation and the five-minute cache) is only
    described by the specification; module [Backend] models it from there,
    with rational numbers for the totals and integer seconds for time. *)

From Stdlib Require Import Bool List String Ascii ZArith NArith QArith Lia PrimFloat.
From Stdlib Require Import SpecFloat FloatOps FloatAxioms DecimalString.
Import ListNotations.

Set Warnings "-inexact-float".

(** ** JavaScript values and exceptions *)

Module Js.

Local Open Scope string_scope.

(** The values a JSON response and a React prop can carry here. *)
Inductive jsval : Type :=
| JUndefined
| JNull
| JBool (b : bool)
| JNum (x : float)
| JStr (s : string).

Inductive js_error : Type :=
| TypeError (msg : string).

(** The outcome of evaluating an expression that may throw. *)
Inductive result (A : Type) : Type :=
| Returns (a : A)
| Throws (e : js_error).
Arguments Returns {A} a.
Arguments Throws {A} e.

Definition bind {A B : Type} (m : result A) (k : A -> result B) : result B :=
  match m with
  | Returns a => k a
  | Throws e => Throws e
  end.

Fixpoint mapM {A B : Type} (f : A -> result B) (l : list A) : result (list B) :=
  match l with
  | [] => Returns []
  | a :: l' =>
      bind (f a) (fun b => bind (mapM f l') (fun bs => Returns (b :: bs)))
  end.

(** The built-ins of the host the components call.  Their digits depend on
    the engine and on its locale, so they stay parameters. *)
Record NumberFormatOptions : Type := {
  style : string;
  currency : option string;
  minimumFractionDigits : option nat;
  maximumFractionDigits : option nat
}.

Record Runtime : Type := {
  parseFloat : string -> float;
  stringToNumber : string -> float;              (* ToNumber on a string *)
  toFixed : float -> nat -> string;              (* x.toFixed(d), 0 <= d <= 100 *)
  numberToLocaleString : float -> string;        (* x.toLocaleString() *)
  intlFormat : option NumberFormatOptions -> float -> string;
                  (* new Intl.NumberFormat('en-US', opts).format(x) *)
  toLocaleDateString : jsval -> string     (* new Date(v).toLocaleDateString() *)
}.

(** [typeof v === 'string'] *)
Definition is_string (v : jsval) : bool :=
  match v with JStr _ => true | _ => false end.

(** [v === null || v === undefined] *)
Definition is_nullish (v : jsval) : bool :=
  match v with JUndefined | JNull => true | _ => false end.

(** ToBoolean *)
Definition truthy (v : jsval) : bool :=
  match v with
  | JUndefined | JNull => false
  | JBool b => b
  | JNum x => negb (PrimFloat.is_zero x || PrimFloat.is_nan x)
  | JStr s => negb (String.eqb s "")
  end.

(** [a || b] *)
Definition or_else (a b : jsval) : jsval := if truthy a then a else b.

(** [a === b] against a string literal *)
Definition strict_eq_str (v : jsval) (lit : string) : bool :=
  match v with JStr s => String.eqb s lit | _ => false end.

(** ToNumber *)
Definition toNumber (v : jsval) (rt : Runtime) : float :=
  match v with
  | JUndefined => PrimFloat.nan
  | JNull => 0%float
  | JBool true => 1%float
  | JBool false => 0%float
  | JNum x => x
  | JStr s => stringToNumber rt s
  end.

(** The global [isNaN(v)] *)
Definition isNaN (v : jsval) (rt : Runtime) : bool :=
  PrimFloat.is_nan (toNumber v rt).

(** [v.toFixed(d)]: only numbers have the method. *)
Definition call_toFixed (v : jsval) (d : nat) (rt : Runtime) : result string :=
  match v with
  | JNum x => Returns (toFixed rt x d)
  | JUndefined | JNull =>
      Throws (TypeError "Cannot read properties of undefined (reading 'toFixed')")
  | JBool _ | JStr _ => Throws (TypeError "toFixed is not a function")
  end.

(** [v.toLocaleString()]: strings and booleans inherit a method that
    prints them as they are. *)
Definition call_toLocaleString (v : jsval) (rt : Runtime) : result string :=
  match v with
  | JNum x => Returns (numberToLocaleString rt x)
  | JStr s => Returns s
  | JBool true => Returns "true"
  | JBool false => Returns "false"
  | JUndefined | JNull =>
      Throws (TypeError "Cannot read properties of undefined (reading 'toLocaleString')")
  end.

(** [formatter.format(v)] of an [Intl.NumberFormat]: the argument goes
    through ToNumber. *)
Definition call_intlFormat (opts : option NumberFormatOptions) (v : jsval)
           (rt : Runtime) : string :=
  intlFormat rt opts (toNumber v rt).

End Js.

Import Js.

Notation "x <- m ;; k" := (bind m (fun x => k))
(at level 61, m at next level, right associativity).

(** ** MetricCard.jsx *)

Module MetricCard.

Local Open Scope string_scope.

Definition currency_options : NumberFormatOptions :=
  {| style := "currency";
     currency := Some "USD";
     minimumFractionDigits := Some 0%nat;
     maximumFractionDigits := Some 0%nat |}.

(** [formatValue(val, metricType)] *)
Definition formatValue (val : jsval) (metricType : jsval) (rt : Runtime)
  : result jsval :=
  if is_nullish val then Returns (JStr "N/A") else
  let numValue :=
    match val with
    | JStr s => JNum (parseFloat rt s)
    | _ => val
    end in
  if isNaN numValue rt then Returns val else
  if strict_eq_str metricType "currency" then
    Returns (JStr (call_intlFormat (Some currency_options) numValue rt))
  else if strict_eq_str metricType "percentage" then
    s <- call_toFixed numValue 1 rt ;; Returns (JStr (s ++ "%"))
  else if strict_eq_str metricType "decimal" then
    s <- call_toFixed numValue 2 rt ;; Returns (JStr s)
  else
    Returns (JStr (call_intlFormat None numValue rt)).

End MetricCard.

(** ** DashboardPage.jsx *)

(** The shape of [response.data]: every property is read with [?.] or
    [||], so each level may be missing. *)

Module KeyMetrics.
Record t : Type := {
  total_ad_spend : jsval;
  total_revenue : jsval;
  total_impressions : jsval;
  total_clicks : jsval;
  total_sessions : jsval;
  roas : jsval;
  ctr : jsval;
  cost_per_conversion : jsval;
  bounce_rate : jsval;
  conversion_rate : jsval
}.
End KeyMetrics.

Module Campaign.
Record t : Type := {
  name : jsval;
  platform : jsval;
  cost : jsval;
  spend : jsval;
  clicks : jsval;
  impressions : jsval;
  conversions : jsval;
  ctr : jsval;
  status : jsval
}.
End Campaign.

Module HistoricalEntry.
Record t : Type := {
  date : jsval;
  spend : jsval;
  clicks : jsval;
  impressions : jsval;
  conversions : jsval;
  sessions : jsval
}.
End HistoricalEntry.

Module Source.
Record t : Type := {
  historical_data : option (list HistoricalEntry.t);
  campaigns : option (list Campaign.t);
  data_source : jsval
}.
End Source.

Module KpiData.
Record t : Type := {
  key_metrics : option KeyMetrics.t;
  google_ads : option Source.t;
  meta_ads : option Source.t;
  analytics : option Source.t;
  last_updated : jsval
}.
End KpiData.

Module DashboardPage.

Local Open Scope string_scope.

(** One entry of the array [getRoleMetrics] returns, the props of a card. *)
Record Metric : Type := {
  title : string;
  value : jsval;
  type : string;
  icon : string;
  subtitle : option string;
  change : float
}.

(** [getRoleMetrics(data, role)].  [random] is the one draw of
    [Math.random()] the call makes for [commonProps]. *)
Definition getRoleMetrics (data : option KpiData.t) (role : jsval)
           (random : float) : list Metric :=
  match data with
  | None => []
  | Some d =>
    match KpiData.key_metrics d with
    | None => []
    | Some metrics =>
      let commonProps := (random * 20 - 10)%float in
      if strict_eq_str role "finance" then
        [ {| title := "Total Ad Spend";
             value := KeyMetrics.total_ad_spend metrics;
             type := "currency"; icon := "💰";
             subtitle := None; change := commonProps |};
          {| title := "Total Revenue";
             value := KeyMetrics.total_revenue metrics;
             type := "currency"; icon := "📈";
             subtitle := None; change := commonProps |};
          {| title := "ROAS";
             value := KeyMetrics.roas metrics;
             type := "decimal"; icon := "🎯";
             subtitle := Some "Return on Ad Spend"; change := commonProps |};
          {| title := "Cost per Conversion";
             value := KeyMetrics.cost_per_conversion metrics;
             type := "currency"; icon := "🔄";
             subtitle := None; change := commonProps |} ]
      else if strict_eq_str role "marketing" then
        [ {| title := "Total Impressions";
             value := KeyMetrics.total_impressions metrics;
             type := "count"; icon := "👁️";
             subtitle := None; change := commonProps |};
          {| title := "Total Clicks";
             value := KeyMetrics.total_clicks metrics;
             type := "count"; icon := "👆";
             subtitle := None; change := commonProps |};
          {| title := "Click-Through Rate";
             value := KeyMetrics.ctr metrics;
             type := "percentage"; icon := "📊";
             subtitle := None; change := commonProps |};
          {| title := "Total Sessions";
             value := KeyMetrics.total_sessions metrics;
             type := "count"; icon := "🌐";
             subtitle := None; change := commonProps |};
          {| title := "Bounce Rate";
             value := KeyMetrics.bounce_rate metrics;
             type := "percentage"; icon := "🏃";
             subtitle := None; change := commonProps |};
          {| title := "Conversion Rate";
             value := KeyMetrics.conversion_rate metrics;
             type := "percentage"; icon := "✅";
             subtitle := None; change := commonProps |} ]
      else (* default: admin *)
        [ {| title := "Total Ad Spend";
             value := KeyMetrics.total_ad_spend metrics;
             type := "currency"; icon := "💰";
             subtitle := None; change := commonProps |};
          {| title := "Total Revenue";
             value := KeyMetrics.total_revenue metrics;
             type := "currency"; icon := "📈";
             subtitle := None; change := commonProps |};
          {| title := "Total Impressions";
             value := KeyMetrics.total_impressions metrics;
             type := "count"; icon := "👁️";
             subtitle := None; change := commonProps |};
          {| title := "Total Clicks";
             value := KeyMetrics.total_clicks metrics;
             type := "count"; icon := "👆";
             subtitle := None; change := commonProps |};
          {| title := "Total Sessions";
             value := KeyMetrics.total_sessions metrics;
             type := "count"; icon := "🌐";
             subtitle := None; change := commonProps |};
          {| title := "ROAS";
             value := KeyMetrics.roas metrics;
             type := "decimal"; icon := "🎯";
             subtitle := Some "Return on Ad Spend"; change := commonProps |} ]
    end
  end.

(** The card grid: [metricsToShow.map(metric => <MetricCard ... />)], each
    card showing [formatValue(value, type)]. *)
Definition metric_cards (data : option KpiData.t) (role : jsval)
           (random : float) (rt : Runtime) : result (list (string * jsval)) :=
  mapM (fun m =>
          v <- MetricCard.formatValue (value m) (JStr (type m)) rt ;;
          Returns (title m, v))
       (getRoleMetrics data role random).

(** *** Charts *)

(** [l.slice(start)] *)
Definition slice_from {A : Type} (start : Z) (l : list A) : list A :=
  let len := Z.of_nat (List.length l) in
  let k := if (start <? 0)%Z then Z.max (len + start) 0 else Z.min start len in
  skipn (Z.to_nat k) l.

(** [kpiData?.google_ads?.historical_data || []] *)
Definition chartData (kpiData : option KpiData.t) : list HistoricalEntry.t :=
  match kpiData with
  | None => []
  | Some d =>
    match KpiData.google_ads d with
    | None => []
    | Some g =>
      match Source.historical_data g with
      | None => []
      | Some h => h
      end
    end
  end.

(** [chartData.slice(-30).reverse()] *)
Definition last30Days (kpiData : option KpiData.t) : list HistoricalEntry.t :=
  rev (slice_from (-30) (chartData kpiData)).

(** The props of one [<CampaignChart/>]. *)
Record ChartProps : Type := {
  chart_data : list HistoricalEntry.t;
  chart_labels : list string;
  chart_title : string;
  chart_type : string;
  dataKey : string;
  color : string;
  yAxisLabel : string
}.

Definition chart (series : list HistoricalEntry.t) (ttl ty key col axis : string)
           (rt : Runtime) : ChartProps :=
  {| chart_data := series;
     chart_labels :=
       map (fun item => toLocaleDateString rt (HistoricalEntry.date item)) series;
     chart_title := ttl;
     chart_type := ty;
     dataKey := key;
     color := col;
     yAxisLabel := axis |}.

(** The chart grid, in the order of the JSX; [cond && <CampaignChart/>]. *)
Definition charts (kpiData : option KpiData.t) (role : jsval) (rt : Runtime)
  : list ChartProps :=
  let series := last30Days kpiData in
  let shown (cond : bool) (c : ChartProps) := if cond then [c] else [] in
  (shown (strict_eq_str role "admin" || strict_eq_str role "finance")
        (chart series "Daily Ad Spend" "line" "spend" "#f56565" "Amount ()" rt)
  ++ shown (strict_eq_str role "admin" || strict_eq_str role "marketing")
        (chart series "Daily Clicks" "line" "clicks" "#48bb78" "Clicks" rt)
  ++ shown (strict_eq_str role "marketing")
        (chart series "Daily Impressions" "bar" "impressions" "#63b3ed"
               "Impressions" rt)
  ++ [chart series "Daily Conversions" "bar" "conversions" "#ed8936"
            "Conversions" rt])%list.

(** *** Campaign performance table (admin) *)

(** [campaign => ({...campaign, platform: p,
                   cost: campaign.cost || campaign.spend || 0})] *)
Definition with_platform (p : string) (campaign : Campaign.t) : Campaign.t :=
  {| Campaign.name := Campaign.name campaign;
     Campaign.platform := JStr p;
     Campaign.cost :=
       or_else (or_else (Campaign.cost campaign) (Campaign.spend campaign))
               (JNum 0);
     Campaign.spend := Campaign.spend campaign;
     Campaign.clicks := Campaign.clicks campaign;
     Campaign.impressions := Campaign.impressions campaign;
     Campaign.conversions := Campaign.conversions campaign;
     Campaign.ctr := Campaign.ctr campaign;
     Campaign.status := Campaign.status campaign |}.

(** [source?.campaigns || []] *)
Definition campaigns_of (source : option Source.t) : list Campaign.t :=
  match source with
  | None => []
  | Some s =>
    match Source.campaigns s with
    | None => []
    | Some cs => cs
    end
  end.

Definition source_of (pick : KpiData.t -> option Source.t)
           (kpiData : option KpiData.t) : option Source.t :=
  match kpiData with
  | None => None
  | Some d => pick d
  end.

Definition googleAdsCampaigns (kpiData : option KpiData.t) : list Campaign.t :=
  map (with_platform "Google Ads")
      (campaigns_of (source_of KpiData.google_ads kpiData)).

Definition metaAdsCampaigns (kpiData : option KpiData.t) : list Campaign.t :=
  map (with_platform "Meta Ads")
      (campaigns_of (source_of KpiData.meta_ads kpiData)).

Definition apiCampaigns (kpiData : option KpiData.t) : list Campaign.t :=
  (googleAdsCampaigns kpiData ++ metaAdsCampaigns kpiData)%list.

Definition mock (nm : string) (sp cl im cv ct : float) (st : string)
  : Campaign.t :=
  {| Campaign.name := JStr nm;
     Campaign.platform := JUndefined;
     Campaign.cost := JUndefined;
     Campaign.spend := JNum sp;
     Campaign.clicks := JNum cl;
     Campaign.impressions := JNum im;
     Campaign.conversions := JNum cv;
     Campaign.ctr := JNum ct;
     Campaign.status := JStr st |}.

Definition mockCampaigns : list Campaign.t :=
  [ mock "🎯 Brand Awareness Campaign" 2485.67 312 8945 28 3.49 "ENABLED";
    mock "🚀 Product Launch Campaign" 1876.23 245 7256 19 3.38 "ENABLED";
    mock "🔄 Retargeting Campaign" 892.45 156 3890 22 4.01 "ENABLED";
    mock "🏷️ Black Friday Sale" 3254.89 423 12456 67 3.40 "PAUSED";
    mock "📱 Mobile App Install" 567.34 89 2134 12 4.17 "ENABLED";
    mock "🌟 Holiday Promotion" 1456.78 198 5432 31 3.64 "PAUSED" ].

(** [apiCampaigns.length > 0 ? apiCampaigns : mockCampaigns] *)
Definition campaignsToShow (kpiData : option KpiData.t) : list Campaign.t :=
  if (0 <? List.length (apiCampaigns kpiData))%nat
  then apiCampaigns kpiData
  else mockCampaigns.

(** [apiCampaigns.length === 0] *)
Definition isUsingMockData (kpiData : option KpiData.t) : bool :=
  (List.length (apiCampaigns kpiData) =? 0)%nat.

(** The coloured [<span>] of a cell: its background and its child. *)
Record Badge : Type := {
  backgroundColor : string;
  text : jsval
}.

Definition platform_badge (campaign : Campaign.t) : Badge :=
  {| backgroundColor :=
       if strict_eq_str (Campaign.platform campaign) "Google Ads"
       then "#4285f4" else "#1877f2";
     text := or_else (Campaign.platform campaign) (JStr "Unknown") |}.

Definition status_badge (campaign : Campaign.t) : Badge :=
  {| backgroundColor :=
       if strict_eq_str (Campaign.status campaign) "ENABLED"
          || strict_eq_str (Campaign.status campaign) "ACTIVE"
       then "#48bb78" else "#f56565";
     text := or_else (Campaign.status campaign) (JStr "UNKNOWN") |}.

(** One [<tr>]: the children of its cells. *)
Record Row : Type := {
  name_cell : jsval;
  platform_cell : Badge;
  spend_cell : string;
  clicks_cell : string;
  ctr_cell : string;
  conversions_cell : string;
  status_cell : Badge
}.

Definition render_row (campaign : Campaign.t) (rt : Runtime) : result Row :=
  spend <- call_toLocaleString
             (or_else (or_else (Campaign.cost campaign) (Campaign.spend campaign))
                      (JNum 0)) rt ;;
  clicks <- call_toLocaleString (or_else (Campaign.clicks campaign) (JNum 0)) rt ;;
  ctr <- call_toFixed (or_else (Campaign.ctr campaign) (JNum 0)) 2 rt ;;
  conversions <-
    call_toLocaleString (or_else (Campaign.conversions campaign) (JNum 0)) rt ;;
  Returns
    {| name_cell := Campaign.name campaign;
       platform_cell := platform_badge campaign;
       spend_cell := "$" ++ spend;
       clicks_cell := clicks;
       ctr_cell := ctr ++ "%";
       conversions_cell := conversions;
       status_cell := status_badge campaign |}.

(** The table with its optional "Demo Data" notice. *)
Record CampaignTable : Type := {
  demo_notice : bool;
  rows : list Row
}.

Definition campaign_table (kpiData : option KpiData.t) (rt : Runtime)
  : result CampaignTable :=
  rs <- mapM (fun campaign => render_row campaign rt) (campaignsToShow kpiData) ;;
  Returns {| demo_notice := isUsingMockData kpiData; rows := rs |}.

(** [userData?.role === 'admin' && (...)] *)
Definition campaign_section (kpiData : option KpiData.t) (role : jsval)
           (rt : Runtime) : result (option CampaignTable) :=
  if strict_eq_str role "admin"
  then t <- campaign_table kpiData rt ;; Returns (Some t)
  else Returns None.

End DashboardPage.

(** ** The aggregation and caching layer of the Flask back end *)

Module Backend.

(** Modelled from the spec: the clock of the missing back end, in whole
    seconds, with which [created_at], ages and the TTL are measured. *)
Definition time : Type := Z.

(** Modelled from the spec: the cache's fixed TTL configuration value,
    5 minutes, in seconds (the back end's constant is not in the sources). *)
Definition TTL : Z := 300.

(** Modelled from the spec: the [data_source] tag of a [SourceMetrics],
    a live provider call or a simulated fallback. *)
Inductive DataSource : Type := Live | Simulated.

(** Modelled from the spec: the normalized per-provider record produced by
    the missing Metric Normalizer, reduced to its aggregate totals; a field
    absent upstream is 0. *)
Record SourceMetrics : Type := {
  spend : Q;
  revenue : Q;
  clicks : Q;
  impressions : Q;
  conversions : Q;
  sessions : Q;
  bounce : Q;
  data_source : DataSource
}.

(** Modelled from the spec: the join of one round of Provider Adapter calls of
    the missing Aggregator; [None] is a provider's hard failure (error or
    timeout), which is the absence of a [SourceMetrics] for it. *)
Record PerSource : Type := {
  google_ads : option SourceMetrics;
  meta_ads : option SourceMetrics;
  analytics : option SourceMetrics
}.

Definition sources (outs : PerSource) : list (option SourceMetrics) :=
  [google_ads outs; meta_ads outs; analytics outs].

Definition failed (o : option SourceMetrics) : bool :=
  match o with None => true | Some _ => false end.

(** Modelled from the spec: "every provider fails" of the missing
    Aggregator. *)
Definition all_failed (outs : PerSource) : bool := forallb failed (sources outs).

(** Modelled from the spec: the combined totals of the missing Aggregator; a
    failed source is omitted from the totals. *)
Record Totals : Type := {
  total_ad_spend : Q;
  total_revenue : Q;
  total_impressions : Q;
  total_clicks : Q;
  total_conversions : Q;
  total_sessions : Q
}.

Definition sum_of (field : SourceMetrics -> Q) (outs : PerSource) : Q :=
  fold_right (fun o acc =>
                match o with
                | Some m => (field m + acc)%Q
                | None => acc
                end) 0%Q (sources outs).

Definition combine (outs : PerSource) : Totals :=
  {| total_ad_spend := sum_of spend outs;
     total_revenue := sum_of revenue outs;
     total_impressions := sum_of impressions outs;
     total_clicks := sum_of clicks outs;
     total_conversions := sum_of conversions outs;
     total_sessions := sum_of sessions outs |}.

(** Modelled from the spec: the failures of the missing Aggregator.
    [AllSourcesUnavailable] is the spec's; [ZeroDivisionError] is what a
    division by zero raises in the back end's language, the error the
    zero guards of the derived ratios are there to exclude. *)
Inductive AggregationError : Type :=
| AllSourcesUnavailable
| ZeroDivisionError.

Inductive outcome (A : Type) : Type :=
| Ok (a : A)
| Fails (e : AggregationError).
Arguments Ok {A} a.
Arguments Fails {A} e.

(** Modelled from the spec: the division of the back end's language, which
    raises on a zero divisor. *)
Definition divide (a b : Q) : outcome Q :=
  if Qeq_bool b 0 then Fails ZeroDivisionError else Ok (a / b)%Q.

(** Modelled from the spec: the derived ratios of the missing Aggregator,
    "defined as 0 when" the denominator is 0. *)
Definition ctr_of (t : Totals) : outcome Q :=
  if Qeq_bool (total_impressions t) 0 then Ok 0%Q else
  match divide (total_clicks t) (total_impressions t) with
  | Ok q => Ok (q * 100)%Q
  | Fails e => Fails e
  end.

Definition roas_of (t : Totals) : outcome Q :=
  if Qeq_bool (total_ad_spend t) 0 then Ok 0%Q else
  divide (total_revenue t) (total_ad_spend t).

Definition cost_per_conversion_of (t : Totals) : outcome Q :=
  if Qeq_bool (total_conversions t) 0 then Ok 0%Q else
  divide (total_ad_spend t) (total_conversions t).

Definition conversion_rate_of (t : Totals) : outcome Q :=
  if Qeq_bool (total_clicks t) 0 then Ok 0%Q else
  match divide (total_conversions t) (total_clicks t) with
  | Ok q => Ok (q * 100)%Q
  | Fails e => Fails e
  end.

(** Modelled from the spec: [KpiSnapshot.key_metrics] of the missing
    Aggregator, the totals and the ratios derived from them; [bounce_rate]
    is the analytics source's reported value. *)
Record KeyMetrics : Type := {
  totals : Totals;
  roas : Q;
  ctr : Q;
  cost_per_conversion : Q;
  bounce_rate : Q;
  conversion_rate : Q
}.

Definition bounce_rate_of (outs : PerSource) : Q :=
  match analytics outs with
  | Some m => bounce m
  | None => 0%Q
  end.

Definition derive (outs : PerSource) : outcome KeyMetrics :=
  let t := combine outs in
  match roas_of t, ctr_of t, cost_per_conversion_of t, conversion_rate_of t with
  | Ok r, Ok c, Ok cpc, Ok cr =>
      Ok {| totals := t; roas := r; ctr := c; cost_per_conversion := cpc;
            bounce_rate := bounce_rate_of outs; conversion_rate := cr |}
  | Fails e, _, _, _ => Fails e
  | _, Fails e, _, _ => Fails e
  | _, _, Fails e, _ => Fails e
  | _, _, _, Fails e => Fails e
  end.

(** Modelled from the spec: the [KpiSnapshot] of the missing back end, the
    unit of caching. *)
Record KpiSnapshot : Type := {
  key_metrics : KeyMetrics;
  per_source : PerSource;
  created_at : time
}.

(** Modelled from the spec: the merge step of the missing Aggregator; it
    fails with [AllSourcesUnavailable] when every provider fails. *)
Definition aggregate (now : time) (outs : PerSource) : outcome KpiSnapshot :=
  if all_failed outs then Fails AllSourcesUnavailable else
  match derive outs with
  | Ok km => Ok {| key_metrics := km; per_source := outs; created_at := now |}
  | Fails e => Fails e
  end.

(** *** Cache *)

(** Modelled from the spec: the [CacheEntry] singleton of the missing Cache
    component, one snapshot and its bookkeeping. *)
Record Cache : Type := {
  entry : option KpiSnapshot;
  hit_count : nat;
  miss_count : nat;
  last_refreshed_at : option time
}.

Definition empty : Cache :=
  {| entry := None; hit_count := 0; miss_count := 0; last_refreshed_at := None |}.

(** Modelled from the spec: [isExpired()] of the missing Cache,
    [now - created_at >= TTL]; an empty cache has nothing fresh. *)
Definition isExpired (now : time) (c : Cache) : bool :=
  match entry c with
  | Some s => (TTL <=? now - created_at s)%Z
  | None => true
  end.

(** Modelled from the spec: [get()] of the missing Cache: the entry if
    present and [now - created_at < TTL], otherwise Empty; the cache it
    leaves behind is returned too. *)
Definition get (now : time) (c : Cache) : option KpiSnapshot * Cache :=
  match entry c with
  | Some s => if (now - created_at s <? TTL)%Z then (Some s, c) else (None, c)
  | None => (None, c)
  end.

Definition stamped (now : time) (s : KpiSnapshot) : KpiSnapshot :=
  {| key_metrics := key_metrics s; per_source := per_source s; created_at := now |}.

(** Modelled from the spec: [put(snapshot)] of the missing Cache: replaces
    the entry, resets [created_at] to now, increments no counter. *)
Definition put (now : time) (s : KpiSnapshot) (c : Cache) : Cache :=
  {| entry := Some (stamped now s);
     hit_count := hit_count c;
     miss_count := miss_count c;
     last_refreshed_at := Some now |}.

(** Modelled from the spec: [clear()] of the missing Cache. *)
Definition clear (c : Cache) : Cache :=
  {| entry := None;
     hit_count := hit_count c;
     miss_count := miss_count c;
     last_refreshed_at := last_refreshed_at c |}.

(** Modelled from the spec: [stats()] of the missing Cache. *)
Record CacheStats : Type := {
  has_data : bool;
  age_seconds : option Z;
  ttl_seconds : Z;
  hits : nat;
  misses : nat
}.

Definition stats (now : time) (c : Cache) : CacheStats :=
  {| has_data := match entry c with Some _ => true | None => false end;
     age_seconds :=
       match entry c with
       | Some s => Some (now - created_at s)%Z
       | None => None
       end;
     ttl_seconds := TTL;
     hits := hit_count c;
     misses := miss_count c |}.

Definition count_hit (c : Cache) : Cache :=
  {| entry := entry c; hit_count := S (hit_count c);
     miss_count := miss_count c; last_refreshed_at := last_refreshed_at c |}.

Definition count_miss (c : Cache) : Cache :=
  {| entry := entry c; hit_count := hit_count c;
     miss_count := S (miss_count c); last_refreshed_at := last_refreshed_at c |}.

(** *** Aggregator entry point *)

(** Modelled from the spec: what a [getSnapshot] call of the missing
    Aggregator hands back, the snapshot with the cache statistics of the
    response, or the aggregation-wide failure. *)
Inductive Response : Type :=
| Served (snapshot : KpiSnapshot) (cache_stats : CacheStats)
| Failed (e : AggregationError).

(** Modelled from the spec: one refresh of the missing Aggregator, given
    the joined provider outcomes: a successful merge is published with
    [put]; on failure a prior snapshot, even stale, is served and nothing
    is cached. *)
Definition refresh (now : time) (outs : PerSource) (c : Cache)
  : Response * Cache :=
  match aggregate now outs with
  | Ok snap =>
      let c' := put now snap c in
      (Served (stamped now snap) (stats now c'), c')
  | Fails e =>
      match entry c with
      | Some prior => (Served prior (stats now c), c)
      | None => (Failed e, c)
      end
  end.

(** Modelled from the spec: [getSnapshot(forceRefresh)] of the missing
    Aggregator, for a caller running alone; [outs] is what the providers
    answer if they are asked. *)
Definition getSnapshot (forceRefresh : bool) (now : time) (outs : PerSource)
           (c : Cache) : Response * Cache :=
  match (if forceRefresh then None else fst (get now c)) with
  | Some s => let c' := count_hit c in (Served s (stats now c'), c')
  | None => refresh now outs (count_miss c)
  end.

(** *** Concurrent requests and the refresh guard *)

(** Modelled from the spec: the missing back end under concurrent requests,
    as an interleaving of atomic events.  [in_flight] is the refresh guard:
    the callers suspended on the one running refresh. *)
Definition Caller : Type := nat.

Record System : Type := {
  cache : Cache;
  in_flight : option (list Caller);
  rounds_started : nat;
  rounds_completed : nat;
  responses : list (Caller * Response)
}.

Definition initial : System :=
  {| cache := empty; in_flight := None; rounds_started := 0;
     rounds_completed := 0; responses := [] |}.

Record Req : Type := {
  who : Caller;
  forceRefresh : bool;
  at_time : time
}.

Inductive Event : Type :=
| Request (r : Req)
| RefreshCompletes (now : time) (outs : PerSource)
| ClearCache.

(** Modelled from the spec: the arrival of a [getSnapshot] call: a fresh
    entry answers an unforced call at once; otherwise the caller starts the
    refresh (one round of provider calls) if none is running, or joins the
    running one. *)
Definition arrive (r : Req) (st : System) : System :=
  match (if forceRefresh r then None else fst (get (at_time r) (cache st))) with
  | Some s =>
      let c' := count_hit (cache st) in
      {| cache := c';
         in_flight := in_flight st;
         rounds_started := rounds_started st;
         rounds_completed := rounds_completed st;
         responses := responses st ++ [(who r, Served s (stats (at_time r) c'))] |}
  | None =>
      let c' := count_miss (cache st) in
      match in_flight st with
      | Some waiting =>
          {| cache := c';
             in_flight := Some (waiting ++ [who r]);
             rounds_started := rounds_started st;
             rounds_completed := rounds_completed st;
             responses := responses st |}
      | None =>
          {| cache := c';
             in_flight := Some [who r];
             rounds_started := S (rounds_started st);
             rounds_completed := rounds_completed st;
             responses := responses st |}
      end
  end.

(** Modelled from the spec: the running refresh publishes its result (or
    fails) and every suspended caller receives it. *)
Definition complete (now : time) (outs : PerSource) (st : System) : System :=
  match in_flight st with
  | None => st
  | Some waiting =>
      let (resp, c') := refresh now outs (cache st) in
      {| cache := c';
         in_flight := None;
         rounds_started := rounds_started st;
         rounds_completed := S (rounds_completed st);
         responses := responses st ++ map (fun w => (w, resp)) waiting |}
  end.

Definition step (st : System) (e : Event) : System :=
  match e with
  | Request r => arrive r st
  | RefreshCompletes now outs => complete now outs st
  | ClearCache =>
      {| cache := clear (cache st);
         in_flight := in_flight st;
         rounds_started := rounds_started st;
         rounds_completed := rounds_completed st;
         responses := responses st |}
  end.

Definition run (st : System) (events : list Event) : System :=
  fold_left step events st.

Definition waiting_callers (st : System) : list Caller :=
  match in_flight st with
  | Some waiting => waiting
  | None => []
  end.

End Backend.

(** ** MetricCard.jsx: the change indicator and the card *)

Module MetricCardView.

Local Open Scope string_scope.

(** The object [getChangeInfo] returns. *)
Record ChangeInfo : Type := {
  className : string;
  indicator : string;
  text : string
}.

(** [a > b] and [a < b] on values: both sides go through ToNumber. *)
Definition js_gt (a : jsval) (b : float) (rt : Runtime) : bool :=
  PrimFloat.ltb b (toNumber a rt).

Definition js_lt (a : jsval) (b : float) (rt : Runtime) : bool :=
  PrimFloat.ltb (toNumber a rt) b.

(** [getChangeInfo(changeValue)] *)
Definition getChangeInfo (changeValue : jsval) (rt : Runtime) : result ChangeInfo :=
  if is_nullish changeValue then
    Returns {| className := "neutral"; indicator := ""; text := "" |}
  else
  let numChange :=
    match changeValue with
    | JStr s => JNum (parseFloat rt s)
    | _ => changeValue
    end in
  if isNaN numChange rt then
    Returns {| className := "neutral"; indicator := ""; text := "" |}
  else if js_gt numChange 0 rt then
    s <- call_toFixed numChange 1 rt ;;
    Returns {| className := "positive"; indicator := "↗";
               text := "+" ++ s ++ "%" |}
  else if js_lt numChange 0 rt then
    s <- call_toFixed numChange 1 rt ;;
    Returns {| className := "negative"; indicator := "↙"; text := s ++ "%" |}
  else
    Returns {| className := "neutral"; indicator := "→"; text := "0.0%" |}.

(** The props of [<MetricCard/>]; a prop left out is [JUndefined]. *)
Record Props : Type := {
  title : jsval;
  value : jsval;
  change : jsval;
  type : jsval;
  icon : jsval;
  subtitle : jsval
}.

(** A destructuring default: [name = dflt] applies to [undefined] only. *)
Definition defaulted (v dflt : jsval) : jsval :=
  match v with
  | JUndefined => dflt
  | _ => v
  end.

(** [{cond && <div>...{cond}...</div>}]: the element when [cond] is truthy,
    else the falsy value itself. *)
Inductive Slot : Type :=
| Element (child : jsval)
| Bare (v : jsval).

Definition and_then (cond : jsval) : Slot :=
  if truthy cond then Element cond else Bare cond.

(** What the card renders; the change indicator is commented out in the
    JSX, so [changeInfo] is computed and not shown. *)
Record Card : Type := {
  icon_slot : Slot;
  metric_title : jsval;
  metric_value : jsval;
  subtitle_slot : Slot
}.

Definition MetricCard (props : Props) (rt : Runtime) : result Card :=
  let change := defaulted (change props) JNull in
  let type := defaulted (type props) (JStr "count") in
  let icon := defaulted (icon props) JNull in
  let subtitle := defaulted (subtitle props) JNull in
  changeInfo <- getChangeInfo change rt ;;
  formattedValue <- MetricCard.formatValue (value props) type rt ;;
  Returns {| icon_slot := and_then icon;
             metric_title := title props;
             metric_value := formattedValue;
             subtitle_slot := and_then subtitle |}.

(** The props [DashboardPage] passes for one entry of [getRoleMetrics]. *)
Definition props_of (metric : DashboardPage.Metric) : Props :=
  {| title := JStr (DashboardPage.title metric);
     value := DashboardPage.value metric;
     change := JNum (DashboardPage.change metric);
     type := JStr (DashboardPage.type metric);
     icon := JStr (DashboardPage.icon metric);
     subtitle :=
       match DashboardPage.subtitle metric with
       | Some s => JStr s
       | None => JUndefined
       end |}.

(** The metrics grid of [DashboardPage]:
    [metricsToShow.map(metric => <MetricCard ... />)]. *)
Definition metrics_grid (data : option KpiData.t) (role : jsval)
           (random : float) (rt : Runtime) : result (list Card) :=
  mapM (fun metric => MetricCard (props_of metric) rt)
       (DashboardPage.getRoleMetrics data role random).

End MetricCardView.

(** ** String methods *)

Module JsString.

(** [s.includes(sub)] *)
Fixpoint includes (sub s : string) : bool :=
  String.prefix sub s
  || match s with
     | EmptyString => false
     | String _ s' => includes sub s'
     end.

End JsString.

(** ** DashboardPage.jsx: greeting, loading states and the table footer *)

Module DashboardView.

Local Open Scope string_scope.

(** What [greetings[role] || 'KPI Dashboard'] evaluates to: one of the
    titles, or, for a role spelled like a property every object inherits
    from [Object.prototype], that inherited member (a function or an
    object, always truthy). *)
Inductive Greeting : Type :=
| Title (s : string)
| PrototypeMember (key : string).

Definition object_prototype_keys : list string :=
  [ "constructor"; "__defineGetter__"; "__defineSetter__"; "hasOwnProperty";
    "__lookupGetter__"; "__lookupSetter__"; "isPrototypeOf";
    "propertyIsEnumerable"; "toString"; "valueOf"; "__proto__";
    "toLocaleString" ].

Definition mem (s : string) (l : list string) : bool :=
  existsb (String.eqb s) l.

(** [getRoleGreeting(role)].  A role that is not a string is looked up
    under its string form ("undefined", "null", "true", "false" or a
    numeral), which is no key of [greetings] nor of its prototype. *)
Definition getRoleGreeting (role : jsval) : Greeting :=
  match role with
  | JStr s =>
      if String.eqb s "admin" then Title "Administrator Dashboard"
      else if String.eqb s "marketing" then Title "Marketing Performance Dashboard"
      else if String.eqb s "finance" then Title "Financial Metrics Dashboard"
      else if mem s object_prototype_keys then PrototypeMember s
      else Title "KPI Dashboard"
  | _ => Title "KPI Dashboard"
  end.

(** *** The state of the page and [loadKPIData] *)

(** The [useState] cells the page renders from, and [pending], the number
    of [loadKPIData] calls that have started and not yet settled (not a
    cell of the component: it counts the requests in the air). *)
Record PageState : Type := {
  kpiData : option KpiData.t;
  loading : bool;
  error : string;
  refreshing : bool;
  pending : nat
}.

(** The cells as [useState] initialises them. *)
Definition mounted : PageState :=
  {| kpiData := None; loading := true; error := ""; refreshing := false;
     pending := 0 |}.

(** The three moments of a [loadKPIData(forceRefresh)] call: its
    synchronous start, and after the [await] either the [try] block
    finishing with [response.data] or the [catch] block with
    [err.message]; the [finally] block runs with either. *)
Inductive Event : Type :=
| CallLoad (forceRefresh : bool)
| Resolve (data : option KpiData.t)
| Reject (message : string).

Definition step (st : PageState) (e : Event) : PageState :=
  match e with
  | CallLoad forceRefresh =>
      {| kpiData := kpiData st;
         loading := if forceRefresh then loading st else true;
         error := "";
         refreshing := if forceRefresh then true else refreshing st;
         pending := S (pending st) |}
  | Resolve data =>
      {| kpiData := data;
         loading := false;
         error := error st;
         refreshing := false;
         pending := Nat.pred (pending st) |}
  | Reject message =>
      {| kpiData := kpiData st;
         loading := false;
         error := message;
         refreshing := false;
         pending := Nat.pred (pending st) |}
  end.

(** Which of the three returns of the component renders. *)
Inductive View : Type :=
| Spinner
| ErrorPanel (message : string)
| Main (data : option KpiData.t) (refresh_disabled : bool).

Definition view (st : PageState) : View :=
  if loading st then Spinner
  else if negb (String.eqb (error st) "") then ErrorPanel (error st)
  else Main (kpiData st) (refreshing st).

(** What can happen next: the Refresh button of the main view calls
    [loadKPIData(true)] unless it is disabled, the Try Again button of the
    error panel calls [loadKPIData()], and a request in the air settles. *)
Definition enabled (st : PageState) (e : Event) : bool :=
  match e with
  | CallLoad true =>
      match view st with
      | Main _ refresh_disabled => negb refresh_disabled
      | _ => false
      end
  | CallLoad false =>
      match view st with
      | ErrorPanel _ => true
      | _ => false
      end
  | Resolve _ | Reject _ => (0 <? pending st)%nat
  end.

Fixpoint interact (st : PageState) (events : list Event) : option PageState :=
  match events with
  | [] => Some st
  | e :: events' =>
      if enabled st e then interact (step st e) events' else None
  end.

(** The page once the [useEffect] on [userData] has called
    [loadKPIData()]. *)
Definition first_load : PageState := step mounted (CallLoad false).

(** *** The connection footer of the campaign table *)

Record Footer : Type := {
  google_state : string;
  google_count : nat;
  meta_state : string;
  meta_count : nat
}.

(** [kpiData?.google_ads?.data_source?.includes('google_ads_api')] *)
Definition google_connected (kpiData : option KpiData.t) : result bool :=
  match DashboardPage.source_of KpiData.google_ads kpiData with
  | None => Returns false
  | Some g =>
      match Source.data_source g with
      | JUndefined | JNull => Returns false
      | JStr s => Returns (JsString.includes "google_ads_api" s)
      | JBool _ | JNum _ => Throws (TypeError "includes is not a function")
      end
  end.

(** [kpiData?.meta_ads?.campaigns?.length > 0] *)
Definition meta_connected (kpiData : option KpiData.t) : bool :=
  match DashboardPage.source_of KpiData.meta_ads kpiData with
  | None => false
  | Some m =>
      match Source.campaigns m with
      | None => false
      | Some cs => (0 <? List.length cs)%nat
      end
  end.

Definition footer (kpiData : option KpiData.t) : result Footer :=
  g <- google_connected kpiData ;;
  Returns
    {| google_state := if g then "Connected" else "Demo";
       google_count :=
         List.length (DashboardPage.campaigns_of
                        (DashboardPage.source_of KpiData.google_ads kpiData));
       meta_state := if meta_connected kpiData then "Connected" else "Demo";
       meta_count :=
         List.length (DashboardPage.campaigns_of
                        (DashboardPage.source_of KpiData.meta_ads kpiData)) |}.

End DashboardView.

(** ** services/api.js *)

Module Api.

Local Open Scope string_scope.








(** The error object of a failed axios call, as the handlers read it:
    [code], [message], whether a request was sent, and the response if one
    came, with its [status] and its [data?.error]. *)
Record ErrorResponse : Type := {
  status : jsval;
  data_error : jsval
}.

Record AxiosError : Type := {
  code : jsval;
  message : string;
  request : bool;
  response : option ErrorResponse
}.

(** [error.response?.data?.error] *)
Definition server_error (error : AxiosError) : jsval :=
  match response error with
  | Some r => data_error r
  | None => JUndefined
  end.



(** The argument of [new Error(...)] in the [catch] of [authAPI.login]. *)
Definition login_error (error : AxiosError) : jsval :=
  or_else (server_error error) (JStr "Login failed. Please try again.").

(** ... of [authAPI.getProfile] *)
Definition getProfile_error (error : AxiosError) : jsval :=
  or_else (server_error error) (JStr "Failed to fetch user profile").

(** ... of [kpiAPI.getKPIData]: [errorMessage] *)
Definition getKPIData_error (error : AxiosError) : jsval :=
  if strict_eq_str (code error) "ECONNABORTED"
     && JsString.includes "timeout" (message error)
  then JStr "Request timed out. The API is fetching data from multiple sources (Google Ads, Meta Ads, Google Analytics). Please try refreshing the page."
  else or_else (or_else (server_error error) (JStr (message error)))
               (JStr "Failed to fetch KPI data").

(** ... of [kpiAPI.clearCache] and [kpiAPI.getCacheStats] *)
Definition clearCache_error (error : AxiosError) : jsval :=
  or_else (server_error error) (JStr "Failed to clear cache").

Definition getCacheStats_error (error : AxiosError) : jsval :=
  or_else (server_error error) (JStr "Failed to fetch cache statistics").

(** [handleAPIError(error)] *)
Definition handleAPIError (error : AxiosError) : jsval :=
  match response error with
  | Some r => or_else (data_error r) (JStr "Server error occurred")
  | None =>
      if request error
      then JStr "Unable to connect to server. Please check your connection."
      else or_else (JStr (message error)) (JStr "An unexpected error occurred")
  end.

(** [kpiAPI.getKPIData]'s query: [forceRefresh ? { force_refresh: 'true' } : {}] *)
Definition getKPIData_params (forceRefresh : bool) : list (string * string) :=
  if forceRefresh then [("force_refresh", "true")] else [].




End Api.

(** ** App.jsx *)

Module App.

(** The [<Route>] the router matched. *)
Inductive Route : Type :=
| LoginRoute       (* path="/login" *)
| DashboardRoute   (* path="/dashboard" *)
| RootRoute        (* path="/" *)
| CatchAllRoute.   (* path="*" *)

Inductive Page : Type := LoginPage | DashboardPage.

(** What a route's element renders: a page, or a [<Navigate>] to the
    route declared for its target path. *)
Inductive Element : Type :=
| Render (page : Page)
| Navigate (to : Route).





End App.

(** ** Regular expressions, as [RegExp.prototype.test] decides them *)

Module Regex.

Section Expressions.

Variable A : Type.

(** The patterns used in the sources: character classes, sequence,
    alternative and repetition; none has a back-reference or a look-around,
    so [/^r$/.test(s)] holds exactly when [s] is a word of [r]. *)
Inductive re : Type :=
| Void
| Eps
| Chr (p : A -> bool)
| Cat (r s : re)
| Alt (r s : re)
| Star (r : re).

(** [r+] and [r?] *)
Definition Plus (r : re) : re := Cat r (Star r).
Definition Opt (r : re) : re := Alt Eps r.

Fixpoint nullable (r : re) : bool :=
  match r with
  | Void => false
  | Eps => true
  | Chr _ => false
  | Cat r1 r2 => nullable r1 && nullable r2
  | Alt r1 r2 => nullable r1 || nullable r2
  | Star _ => true
  end.

(** What is left of [r] to match after the character [a]. *)
Fixpoint deriv (a : A) (r : re) : re :=
  match r with
  | Void => Void
  | Eps => Void
  | Chr p => if p a then Eps else Void
  | Cat r1 r2 =>
      if nullable r1
      then Alt (Cat (deriv a r1) r2) (deriv a r2)
      else Cat (deriv a r1) r2
  | Alt r1 r2 => Alt (deriv a r1) (deriv a r2)
  | Star r1 => Cat (deriv a r1) (Star r1)
  end.

(** [/^r$/.test(s)] *)
Fixpoint test (r : re) (s : list A) : bool :=
  match s with
  | [] => nullable r
  | a :: s' => test (deriv a r) s'
  end.

(** The words of a pattern. *)
Inductive lang : re -> list A -> Prop :=
| lang_eps : lang Eps []
| lang_chr (p : A -> bool) (a : A) : p a = true -> lang (Chr p) [a]
| lang_cat (r1 r2 : re) (s1 s2 : list A) :
    lang r1 s1 -> lang r2 s2 -> lang (Cat r1 r2) (s1 ++ s2)
| lang_alt_l (r1 r2 : re) (s : list A) : lang r1 s -> lang (Alt r1 r2) s
| lang_alt_r (r1 r2 : re) (s : list A) : lang r2 s -> lang (Alt r1 r2) s
| lang_star_nil (r : re) : lang (Star r) []
| lang_star_app (r : re) (s1 s2 : list A) :
    lang r s1 -> lang (Star r) s2 -> lang (Star r) (s1 ++ s2).

End Expressions.

Arguments Void {A}.
Arguments Eps {A}.
Arguments Chr {A} p.
Arguments Cat {A} r s.
Arguments Alt {A} r s.
Arguments Star {A} r.
Arguments Plus {A} r.
Arguments Opt {A} r.
Arguments nullable {A} r.
Arguments deriv {A} a r.
Arguments test {A} r s.
Arguments lang {A} r s.

End Regex.

(** ** LoginPage.jsx *)

Module Login.

(** A string as the sequence of its UTF-16 code units. *)
Definition jsstring : Type := list N.

(** The code units [\s] matches and [trim()] strips: WhiteSpace and
    LineTerminator. *)
Definition is_space (c : N) : bool :=
  existsb (N.eqb c)
          [ 9; 10; 11; 12; 13; 32; 160; 5760; 8192; 8193; 8194; 8195; 8196;
            8197; 8198; 8199; 8200; 8201; 8202; 8232; 8233; 8239; 8287;
            12288; 65279 ]%N.

Definition at_sign : N := 64.
Definition full_stop : N := 46.

(** [[^\s@]] *)
Definition not_space_or_at (c : N) : bool :=
  negb (is_space c || N.eqb c at_sign).

(** [/^[^\s@]+@[^\s@]+\.[^\s@]+$/] *)
Definition emailRegex : Regex.re N :=
  Regex.Cat (Regex.Plus (Regex.Chr not_space_or_at))
    (Regex.Cat (Regex.Chr (N.eqb at_sign))
       (Regex.Cat (Regex.Plus (Regex.Chr not_space_or_at))
          (Regex.Cat (Regex.Chr (N.eqb full_stop))
             (Regex.Plus (Regex.Chr not_space_or_at))))).

(** [isValidEmail(email)] *)
Definition isValidEmail (email : jsstring) : bool :=
  Regex.test emailRegex email.

Fixpoint trimStart (s : jsstring) : jsstring :=
  match s with
  | [] => []
  | c :: s' => if is_space c then trimStart s' else s
  end.

(** [s.trim()] *)
Definition trim (s : jsstring) : jsstring :=
  rev (trimStart (rev (trimStart s))).

Record FormData : Type := {
  email : jsstring;
  password : jsstring
}.

Definition blank (s : jsstring) : bool :=
  match trim s with
  | [] => true
  | _ :: _ => false
  end.

(** What [handleSubmit] does with the form: one of its two validation
    messages, or the call [authAPI.login(formData.email, formData.password)]. *)
Inductive Submission : Type :=
| ShowError (message : string)
| CallLogin (email password : jsstring).

Definition handleSubmit (formData : FormData) : Submission :=
  if blank (email formData) || blank (password formData)
  then ShowError "Please fill in all fields"
  else if negb (isValidEmail (email formData))
  then ShowError "Please enter a valid email address"
  else CallLogin (email formData) (password formData).

End Login.

(** ** CampaignChart.jsx *)

Module CampaignChart.

(** [\d] and, under the [i] flag, [[a-f]] *)
Definition is_digit (c : ascii) : bool :=
  (48 <=? N_of_ascii c)%N && (N_of_ascii c <=? 57)%N.

Definition is_lower_hex (c : ascii) : bool :=
  (97 <=? N_of_ascii c)%N && (N_of_ascii c <=? 102)%N.

Definition is_upper_hex (c : ascii) : bool :=
  (65 <=? N_of_ascii c)%N && (N_of_ascii c <=? 70)%N.

Definition hex_digit (c : ascii) : bool :=
  is_lower_hex c || is_upper_hex c || is_digit c.

Definition two_hex : Regex.re ascii :=
  Regex.Cat (Regex.Chr hex_digit) (Regex.Chr hex_digit).

(** [/^#?([a-f\d]{2})([a-f\d]{2})([a-f\d]{2})$/i] *)
Definition hexRegex : Regex.re ascii :=
  Regex.Cat (Regex.Opt (Regex.Chr (Ascii.eqb "#")))
            (Regex.Cat two_hex (Regex.Cat two_hex two_hex)).

(** The value of a hexadecimal digit and [parseInt(pair, 16)]. *)
Definition digit_value (c : ascii) : N :=
  if is_digit c then (N_of_ascii c - 48)%N
  else if is_lower_hex c then (N_of_ascii c - 87)%N
  else (N_of_ascii c - 55)%N.

Definition parseInt16 (hi lo : ascii) : N :=
  (16 * digit_value hi + digit_value lo)%N.

Record Rgb : Type := {
  r : N;
  g : N;
  b : N
}.

(** [hexToRgb(hex)]: the three groups are the three pairs after the
    optional [#]; [None] is [null]. *)
Definition hexToRgb (hex : string) : option Rgb :=
  let chars := list_ascii_of_string hex in
  if Regex.test hexRegex chars then
    match (match chars with
           | c :: rest => if Ascii.eqb c "#" then rest else chars
           | [] => chars
           end) with
    | [r1; r2; g1; g2; b1; b2] =>
        Some {| r := parseInt16 r1 r2;
                g := parseInt16 g1 g2;
                b := parseInt16 b1 b2 |}
    | _ => None
    end
  else None.

(** A non-negative integer inside a template literal. *)
Definition decimal (n : N) : string := NilEmpty.string_of_uint (N.to_uint n).

(** [`rgba(${rgb.r}, ${rgb.g}, ${rgb.b}, ${alpha})`], the alpha already
    printed. *)
Definition rgba (rgb : Rgb) (alpha : string) : string :=
  ("rgba(" ++ decimal (r rgb) ++ ", " ++ decimal (g rgb) ++ ", "
   ++ decimal (b rgb) ++ ", " ++ alpha ++ ")")%string.

(** What [generateColors] returns: the three colours, or the base colour
    itself (a string, whose [solid], [transparent] and [gradient] are
    undefined) when it is no hex colour. *)
Inductive Colors : Type :=
| Palette (solid transparent gradient : string)
| Plain (baseColor : string).

(** [generateColors(baseColor)], alpha at its default 0.8 *)
Definition generateColors (baseColor : string) : Colors :=
  match hexToRgb baseColor with
  | None => Plain baseColor
  | Some rgb => Palette baseColor (rgba rgb "0.8") (rgba rgb "0.1")
  end.

Definition solid (colors : Colors) : jsval :=
  match colors with
  | Palette s _ _ => JStr s
  | Plain _ => JUndefined
  end.

Definition transparent (colors : Colors) : jsval :=
  match colors with
  | Palette _ t _ => JStr t
  | Plain _ => JUndefined
  end.

Definition gradient (colors : Colors) : jsval :=
  match colors with
  | Palette _ _ g => JStr g
  | Plain _ => JUndefined
  end.

(** [item[dataKey]] on an entry of [historical_data]: its own field, an
    inherited member of [Object.prototype], or undefined. *)
Inductive Point : Type :=
| Value (v : jsval)
| Inherited (key : string).

Definition item_at (item : HistoricalEntry.t) (dataKey : string) : Point :=
  if String.eqb dataKey "date" then Value (HistoricalEntry.date item)
  else if String.eqb dataKey "spend" then Value (HistoricalEntry.spend item)
  else if String.eqb dataKey "clicks" then Value (HistoricalEntry.clicks item)
  else if String.eqb dataKey "impressions" then
    Value (HistoricalEntry.impressions item)
  else if String.eqb dataKey "conversions" then
    Value (HistoricalEntry.conversions item)
  else if String.eqb dataKey "sessions" then Value (HistoricalEntry.sessions item)
  else if DashboardView.mem dataKey DashboardView.object_prototype_keys then
    Inherited dataKey
  else Value JUndefined.

Record Dataset : Type := {
  label : string;
  points : list Point;
  borderColor : jsval;
  backgroundColor : jsval;
  fill : bool
}.

Inductive ChartView : Type :=
| NoData (title : string)
| LineChart (labels : list string) (dataset : Dataset)
| BarChart (labels : list string) (dataset : Dataset).

(** [labels.length > 0 ? labels : data.map((_, index) => `Item ${index + 1}`)] *)
Definition chart_labels_of (props : DashboardPage.ChartProps) : list string :=
  if (0 <? List.length (DashboardPage.chart_labels props))%nat
  then DashboardPage.chart_labels props
  else map (fun index => ("Item " ++ decimal (N.of_nat (index + 1)))%string)
           (seq 0 (List.length (DashboardPage.chart_data props))).

Definition dataset_of (props : DashboardPage.ChartProps) : Dataset :=
  let colors := generateColors (DashboardPage.color props) in
  let line := String.eqb (DashboardPage.chart_type props) "line" in
  {| label := DashboardPage.chart_title props;
     points := map (fun item => item_at item (DashboardPage.dataKey props))
                   (DashboardPage.chart_data props);
     borderColor := solid colors;
     backgroundColor := if line then gradient colors else transparent colors;
     fill := line |}.

(** The component, on props as [DashboardPage] passes them. *)
Definition CampaignChart (props : DashboardPage.ChartProps) : ChartView :=
  if (List.length (DashboardPage.chart_data props) =? 0)%nat
  then NoData (DashboardPage.chart_title props)
  else if String.eqb (DashboardPage.chart_type props) "line"
  then LineChart (chart_labels_of props) (dataset_of props)
  else BarChart (chart_labels_of props) (dataset_of props).

(** The y-axis [ticks.callback]. *)
Definition tick (dataKey : string) (value : float) (rt : Runtime) : string :=
  if String.eqb dataKey "cost" || String.eqb dataKey "revenue"
  then ("$" ++ numberToLocaleString rt value)%string
  else if String.eqb dataKey "ctr" || String.eqb dataKey "conversion_rate"
  then (toFixed rt value 1 ++ "%")%string
  else numberToLocaleString rt value.

(** The tooltip's [label] callback, [context.dataset.label || ''] given. *)
Definition tooltip_label (dataKey label : string) (value : float) (rt : Runtime)
  : string :=
  if String.eqb dataKey "cost" || String.eqb dataKey "revenue"
  then (label ++ ": $" ++ numberToLocaleString rt value)%string
  else if String.eqb dataKey "ctr" || String.eqb dataKey "conversion_rate"
  then (label ++ ": " ++ toFixed rt value 2 ++ "%")%string
  else (label ++ ": " ++ numberToLocaleString rt value)%string.

End CampaignChart.

(** ** Vocabulary of the further statements *)

(** A value of the kinds [MetricCard] documents for [value]: null,
    undefined, a string or a number. *)
Inductive Documented : Type :=
| DocNull
| DocUndefined
| DocString (s : string)
| DocNumber (x : float).

Definition doc_val (v : Documented) : jsval :=
  match v with
  | DocNull => JNull
  | DocUndefined => JUndefined
  | DocString s => JStr s
  | DocNumber x => JNum x
  end.

(** A [key_metrics] object all of whose fields are of those kinds. *)
Record DocumentedMetrics : Type := {
  d_total_ad_spend : Documented;
  d_total_revenue : Documented;
  d_total_impressions : Documented;
  d_total_clicks : Documented;
  d_total_sessions : Documented;
  d_roas : Documented;
  d_ctr : Documented;
  d_cost_per_conversion : Documented;
  d_bounce_rate : Documented;
  d_conversion_rate : Documented
}.

Definition key_metrics_of (m : DocumentedMetrics) : KeyMetrics.t :=
  {| KeyMetrics.total_ad_spend := doc_val (d_total_ad_spend m);
     KeyMetrics.total_revenue := doc_val (d_total_revenue m);
     KeyMetrics.total_impressions := doc_val (d_total_impressions m);
     KeyMetrics.total_clicks := doc_val (d_total_clicks m);
     KeyMetrics.total_sessions := doc_val (d_total_sessions m);
     KeyMetrics.roas := doc_val (d_roas m);
     KeyMetrics.ctr := doc_val (d_ctr m);
     KeyMetrics.cost_per_conversion := doc_val (d_cost_per_conversion m);
     KeyMetrics.bounce_rate := doc_val (d_bounce_rate m);
     KeyMetrics.conversion_rate := doc_val (d_conversion_rate m) |}.

(** The same object with a boolean where the ROAS should be. *)
Definition with_boolean_roas (m : DocumentedMetrics) (b : bool) : KeyMetrics.t :=
  {| KeyMetrics.total_ad_spend := doc_val (d_total_ad_spend m);
     KeyMetrics.total_revenue := doc_val (d_total_revenue m);
     KeyMetrics.total_impressions := doc_val (d_total_impressions m);
     KeyMetrics.total_clicks := doc_val (d_total_clicks m);
     KeyMetrics.total_sessions := doc_val (d_total_sessions m);
     KeyMetrics.roas := JBool b;
     KeyMetrics.ctr := doc_val (d_ctr m);
     KeyMetrics.cost_per_conversion := doc_val (d_cost_per_conversion m);
     KeyMetrics.bounce_rate := doc_val (d_bounce_rate m);
     KeyMetrics.conversion_rate := doc_val (d_conversion_rate m) |}.

Definition response_with (km : KeyMetrics.t) (g m a : option Source.t)
           (updated : jsval) : KpiData.t :=
  {| KpiData.key_metrics := Some km;
     KpiData.google_ads := g;
     KpiData.meta_ads := m;
     KpiData.analytics := a;
     KpiData.last_updated := updated |}.

(** A runtime to run statements on examples with; what its functions print
    plays no part in any hypothesis. *)
Definition sample_runtime : Runtime :=
  {| parseFloat := fun _ => PrimFloat.nan;
     stringToNumber := fun _ => PrimFloat.nan;
     toFixed := fun _ _ => "0"%string;
     numberToLocaleString := fun _ => "0"%string;
     intlFormat := fun _ _ => "0"%string;
     toLocaleDateString := fun _ => "Invalid Date"%string |}.

(** What a card of the grid shows, from the entry without its [change]. *)
Definition card_of (metric : DashboardPage.Metric) (rt : Runtime) : result MetricCardView.Card :=
  v <- MetricCard.formatValue (DashboardPage.value metric)
         (JStr (DashboardPage.type metric)) rt ;;
  Returns {| MetricCardView.icon_slot := MetricCardView.and_then (JStr (DashboardPage.icon metric));
             MetricCardView.metric_title := JStr (DashboardPage.title metric);
             MetricCardView.metric_value := v;
             MetricCardView.subtitle_slot :=
               MetricCardView.and_then (match DashboardPage.subtitle metric with
                         | Some s => JStr s
                         | None => JNull
                         end) |}.

Definition without_change (metric : DashboardPage.Metric) : DashboardPage.Metric :=
  {| DashboardPage.title := DashboardPage.title metric;
     DashboardPage.value := DashboardPage.value metric;
     DashboardPage.type := DashboardPage.type metric;
     DashboardPage.icon := DashboardPage.icon metric;
     DashboardPage.subtitle := DashboardPage.subtitle metric;
     DashboardPage.change := 0%float |}.


(** The reachable shapes of the page state: idle, first or repeated load,
    or refresh from the main view. *)
Definition page_invariant (st : DashboardView.PageState) : Prop :=
  (DashboardView.pending st = 0%nat
   /\ DashboardView.loading st = false /\ DashboardView.refreshing st = false)
  \/ (DashboardView.pending st = 1%nat
      /\ DashboardView.loading st = true /\ DashboardView.refreshing st = false)
  \/ (DashboardView.pending st = 1%nat
      /\ DashboardView.loading st = false /\ DashboardView.refreshing st = true
      /\ DashboardView.error st = ""%string).

Definition loaded_page (d : option KpiData.t) : DashboardView.PageState :=
  DashboardView.step DashboardView.first_load (DashboardView.Resolve d).

Definition meta_only_response : KpiData.t :=
  {| KpiData.key_metrics := None;
     KpiData.google_ads :=
       Some {| Source.historical_data := None; Source.campaigns := None;
               Source.data_source := JStr "google_ads_api_v14" |};
     KpiData.meta_ads :=
       Some {| Source.historical_data := None;
               Source.campaigns :=
                 Some [DashboardPage.mock "Spring Sale" 10 2 30 1 6.5 "ACTIVE"];
               Source.data_source := JUndefined |};
     KpiData.analytics := None;
     KpiData.last_updated := JUndefined |}.


(** Whether [kpiAPI.getKPIData] reads a failure as a timeout. *)
Definition timed_out (error : Api.AxiosError) : bool :=
  strict_eq_str (Api.code error) "ECONNABORTED"
  && JsString.includes "timeout" (Api.message error).




(** The code units of a text written in ASCII. *)
Definition code_units (s : string) : Login.jsstring :=
  map N_of_ascii (list_ascii_of_string s).

(** The hexadecimal digit for [d < 16], in either case, and the colour
    text of three channels, with or without the leading [#]. *)
Definition hex_char (upper : bool) (d : N) : ascii :=
  ascii_of_N (if (d <? 10)%N then 48 + d
              else if upper then 55 + d else 87 + d)%N.

Definition hex_pair (upper : bool) (n : N) : list ascii :=
  [hex_char upper (n / 16)%N; hex_char upper (n mod 16)%N].

Definition hex_colour (hash upper : bool) (red green blue : N) : string :=
  string_of_list_ascii
    ((if hash then ["#"%char] else [])
     ++ hex_pair upper red ++ hex_pair upper green ++ hex_pair upper blue)%list.

Definition two_days : KpiData.t :=
  {| KpiData.key_metrics := None;
     KpiData.google_ads :=
       Some {| Source.historical_data :=
                 Some [ {| HistoricalEntry.date := JStr "2025-01-01";
                           HistoricalEntry.spend := JNum 10;
                           HistoricalEntry.clicks := JNum 3;
                           HistoricalEntry.impressions := JNum 90;
                           HistoricalEntry.conversions := JNum 1;
                           HistoricalEntry.sessions := JUndefined |};
                        {| HistoricalEntry.date := JStr "2025-01-02";
                           HistoricalEntry.spend := JNum 12;
                           HistoricalEntry.clicks := JNum 4;
                           HistoricalEntry.impressions := JNum 80;
                           HistoricalEntry.conversions := JNum 2;
                           HistoricalEntry.sessions := JUndefined |} ];
               Source.campaigns := None;
               Source.data_source := JUndefined |};
     KpiData.meta_ads := None;
     KpiData.analytics := None;
     KpiData.last_updated := JUndefined |}.


Definition isValidEmail_on (s : string) : bool :=
  Login.isValidEmail (code_units s).


Definition server_down : Api.AxiosError :=
  {| Api.code := JStr "ERR_BAD_RESPONSE";
     Api.message := "Request failed with status code 500";
     Api.request := true;
     Api.response :=
       Some {| Api.status := JNum 500; Api.data_error := JUndefined |} |}.


(** * Vocabulary of the statements *)

Import MetricCard DashboardPage Backend.

(** The string a number is printed as for a metric type, by the branch of
    the [switch] the type selects. *)
Definition formatted (metricType : jsval) (x : float) (rt : Runtime) : string :=
  if strict_eq_str metricType "currency" then
    intlFormat rt (Some {| style := "currency";
                           currency := Some "USD"%string;
                           minimumFractionDigits := Some 0%nat;
                           maximumFractionDigits := Some 0%nat |}) x
  else if strict_eq_str metricType "percentage" then
    (toFixed rt x 1 ++ "%")%string
  else if strict_eq_str metricType "decimal" then toFixed rt x 2
  else intlFormat rt None x.

(** A numeric field of a campaign record as the provider sends it: left
    out, sent as [null], or a number. *)
Inductive NumericField : Type :=
| Missing
| Null
| Number (x : float).

Definition field (f : NumericField) : jsval :=
  match f with
  | Missing => JUndefined
  | Null => JNull
  | Number x => JNum x
  end.

(** The number a table cell shows for a field: the field's, or 0 when the
    field is absent (or is itself 0 or NaN). *)
Definition or_zero (f : NumericField) : float :=
  match f with
  | Number x => if PrimFloat.is_zero x || PrimFloat.is_nan x then 0%float else x
  | Missing | Null => 0%float
  end.

(** The spend a row shows: the cost when there is one, else the spend, else 0. *)
Definition cost_or_spend (c s : NumericField) : float :=
  match c with
  | Number x =>
      if PrimFloat.is_zero x || PrimFloat.is_nan x then or_zero s else x
  | Missing | Null => or_zero s
  end.

(** A campaign record whose numeric fields are numeric where present. *)
Record CampaignFields : Type := {
  f_name : jsval;
  f_platform : jsval;
  f_cost : NumericField;
  f_spend : NumericField;
  f_clicks : NumericField;
  f_impressions : NumericField;
  f_conversions : NumericField;
  f_ctr : NumericField;
  f_status : jsval
}.

Definition campaign_of (r : CampaignFields) : Campaign.t :=
  {| Campaign.name := f_name r;
     Campaign.platform := f_platform r;
     Campaign.cost := field (f_cost r);
     Campaign.spend := field (f_spend r);
     Campaign.clicks := field (f_clicks r);
     Campaign.impressions := field (f_impressions r);
     Campaign.conversions := field (f_conversions r);
     Campaign.ctr := field (f_ctr r);
     Campaign.status := f_status r |}.

(** A campaign as a provider may send it, its [ctr] as text. *)
Definition text_ctr_campaign : Campaign.t :=
  {| Campaign.name := JStr "Spring Sale";
     Campaign.platform := JUndefined;
     Campaign.cost := JNum 120.5;
     Campaign.spend := JUndefined;
     Campaign.clicks := JNum 42;
     Campaign.impressions := JNum 1203;
     Campaign.conversions := JNum 3;
     Campaign.ctr := JStr "3.49";
     Campaign.status := JStr "ACTIVE" |}.

Definition sample_metrics : KeyMetrics.t :=
  {| KeyMetrics.total_ad_spend := JNum 100;
     KeyMetrics.total_revenue := JNum 250;
     KeyMetrics.total_impressions := JNum 8945;
     KeyMetrics.total_clicks := JNum 312;
     KeyMetrics.total_sessions := JNum 1000;
     KeyMetrics.roas := JNum 2.5;
     KeyMetrics.ctr := JNum 3.49;
     KeyMetrics.cost_per_conversion := JNum 3.5;
     KeyMetrics.bounce_rate := JNum 45.2;
     KeyMetrics.conversion_rate := JNum 8.97 |}.

Definition sample_data : KpiData.t :=
  {| KpiData.key_metrics := Some sample_metrics;
     KpiData.google_ads := None;
     KpiData.meta_ads := None;
     KpiData.analytics := None;
     KpiData.last_updated := JUndefined |}.

(** The scenario of the specification: ads report spend 100 and revenue 250,
    analytics reports 1000 sessions and a bounce rate of 45.2. *)
Definition scenario : PerSource :=
  {| google_ads :=
       Some {| spend := 100; revenue := 250; clicks := 0; impressions := 0;
               conversions := 0; sessions := 0; bounce := 0;
               data_source := Live |};
     meta_ads := None;
     analytics :=
       Some {| spend := 0; revenue := 0; clicks := 0; impressions := 0;
               conversions := 0; sessions := 1000; bounce := 45.2;
               data_source := Live |} |}.

(** A call arriving [at_time r] that the cache [c] cannot answer: it is
    forced, or the entry is missing or expired. *)
Definition needs_refresh (c : Cache) (r : Req) : Prop :=
  forceRefresh r = true \/ fst (get (at_time r) c) = None.

Definition running (st : System) : nat :=
  match in_flight st with
  | Some _ => 1
  | None => 0
  end.

Definition expired_snapshot : KpiSnapshot :=
  {| key_metrics :=
       {| totals := combine scenario; roas := 2.5%Q; ctr := 0%Q;
          cost_per_conversion := 0%Q; bounce_rate := 45.2%Q;
          conversion_rate := 0%Q |};
     per_source := scenario;
     created_at := 0%Z |}.

Definition expired_system : System :=
  {| cache := put 0%Z expired_snapshot empty;
     in_flight := None;
     rounds_started := 1%nat;
     rounds_completed := 1%nat;
     responses := [] |}.

Definition three_callers : list Req :=
  [ {| who := 1%nat; forceRefresh := false; at_time := 300%Z |};
    {| who := 2%nat; forceRefresh := true; at_time := 301%Z |};
    {| who := 3%nat; forceRefresh := false; at_time := 302%Z |} ].

(** * Properties of the front end *)

Section MetricCardProperties.

Local Open Scope string_scope.

Lemma formatValue_number (x : float) (metricType : jsval) (rt : Runtime) :
  formatValue (JNum x) metricType rt =
  if PrimFloat.is_nan x then Returns (JNum x)
  else Returns (JStr (formatted metricType x rt)).
Proof.
  unfold formatValue, formatted, isNaN, call_intlFormat; cbn.
  destruct (PrimFloat.is_nan x); [reflexivity|].
  destruct (strict_eq_str metricType "currency"); [reflexivity|].
  destruct (strict_eq_str metricType "percentage"); [reflexivity|].
  destruct (strict_eq_str metricType "decimal"); reflexivity.
Qed.

Lemma formatValue_string (s : string) (metricType : jsval) (rt : Runtime) :
  formatValue (JStr s) metricType rt =
  if PrimFloat.is_nan (parseFloat rt s) then Returns (JStr s)
  else Returns (JStr (formatted metricType (parseFloat rt s) rt)).
Proof.
  unfold formatValue, formatted, isNaN, call_intlFormat; cbn.
  destruct (PrimFloat.is_nan (parseFloat rt s)); [reflexivity|].
  destruct (strict_eq_str metricType "currency"); [reflexivity|].
  destruct (strict_eq_str metricType "percentage"); [reflexivity|].
  destruct (strict_eq_str metricType "decimal"); reflexivity.
Qed.

Example formatValue_samples (rt : Runtime) :
  formatValue JNull (JStr "currency") rt = Returns (JStr "N/A")
  /\ formatValue (JNum PrimFloat.nan) (JStr "count") rt = Returns (JNum PrimFloat.nan)
  /\ formatValue (JNum 2.5) (JStr "decimal") rt = Returns (JStr (toFixed rt 2.5 2))
  /\ formatValue (JNum 45.2) (JStr "percentage") rt
     = Returns (JStr (toFixed rt 45.2 1 ++ "%"))
  /\ formatValue (JNum 8945) (JStr "count") rt
     = Returns (JStr (intlFormat rt None 8945))
  /\ formatValue (JBool true) (JStr "currency") rt
     = Returns (JStr (intlFormat rt (Some currency_options) 1)).
Proof. repeat split. Qed.

(** C9, as stated, fails: [formatValue(true, 'percentage')] passes the
    null check and the [isNaN] check ([isNaN(true)] is false) and then calls
    [true.toFixed(1)], which is a TypeError in every runtime. *)
Lemma formatValue_throws_on_boolean :
  formatValue (JBool true) (JStr "percentage")
  = fun _ : Runtime => Throws (TypeError "toFixed is not a function").
Proof. reflexivity. Qed.

(** C9, amended: on every value of the documented kinds (null, undefined, a
    string or a number) and for every metric type, [formatValue] returns and
    never throws: 'N/A' for null and undefined, the input itself when it
    does not parse to a number, and otherwise the number formatted for the
    type (currency with zero fraction digits, percentage with one decimal
    and a '%' suffix, decimal with two decimals, anything else as a count
    with en-US grouping). *)
Theorem formatValue_total_on_documented_values :
  forall (rt : Runtime) (metricType : jsval),
    formatValue JNull metricType rt = Returns (JStr "N/A")
    /\ formatValue JUndefined metricType rt = Returns (JStr "N/A")
    /\ (forall s : string,
          formatValue (JStr s) metricType rt =
          if PrimFloat.is_nan (parseFloat rt s) then Returns (JStr s)
          else Returns (JStr (formatted metricType (parseFloat rt s) rt)))
    /\ (forall x : float,
          formatValue (JNum x) metricType rt =
          if PrimFloat.is_nan x then Returns (JNum x)
          else Returns (JStr (formatted metricType x rt)))
    /\ (forall val : jsval,
          (exists b, val = JBool b)
          \/ (exists r, formatValue val metricType rt = Returns r)).
Proof.
  intros rt metricType.
  split; [reflexivity|].
  split; [reflexivity|].
  split; [intro s; apply formatValue_string|].
  split; [intro x; apply formatValue_number|].
  intros [ | | b | x | s ].
  - right; eexists; reflexivity.
  - right; eexists; reflexivity.
  - left; eexists; reflexivity.
  - right. rewrite formatValue_number.
    destruct (PrimFloat.is_nan x); eexists; reflexivity.
  - right. rewrite formatValue_string.
    destruct (PrimFloat.is_nan (parseFloat rt s)); eexists; reflexivity.
Qed.

End MetricCardProperties.

Section CampaignTableProperties.

Local Open Scope string_scope.

Lemma or_else_field (f : NumericField) :
  or_else (field f) (JNum 0) = JNum (or_zero f).
Proof.
  destruct f as [ | | x]; try reflexivity.
  unfold or_else, or_zero, truthy, field.
  destruct (PrimFloat.is_zero x || PrimFloat.is_nan x); reflexivity.
Qed.

Lemma or_else_cost_spend (c s : NumericField) :
  or_else (or_else (field c) (field s)) (JNum 0) = JNum (cost_or_spend c s).
Proof.
  destruct c as [ | | x]; try apply or_else_field.
  unfold cost_or_spend.
  destruct (PrimFloat.is_zero x || PrimFloat.is_nan x) eqn:E.
  - replace (or_else (field (Number x)) (field s)) with (field s)
      by (unfold or_else, truthy, field at 1 2; now rewrite E).
    apply or_else_field.
  - replace (or_else (field (Number x)) (field s)) with (JNum x)
      by (unfold or_else, truthy, field at 1 2; now rewrite E).
    unfold or_else, truthy. now rewrite E.
Qed.

Lemma render_row_fields (r : CampaignFields) (rt : Runtime) :
  render_row (campaign_of r) rt =
  Returns
    {| name_cell := f_name r;
       platform_cell := platform_badge (campaign_of r);
       spend_cell :=
         "$" ++ numberToLocaleString rt (cost_or_spend (f_cost r) (f_spend r));
       clicks_cell := numberToLocaleString rt (or_zero (f_clicks r));
       ctr_cell := toFixed rt (or_zero (f_ctr r)) 2 ++ "%";
       conversions_cell := numberToLocaleString rt (or_zero (f_conversions r));
       status_cell := status_badge (campaign_of r) |}.
Proof.
  unfold render_row; cbn.
  rewrite or_else_cost_spend, !or_else_field. reflexivity.
Qed.

Lemma with_platform_fields (p : string) (r : CampaignFields) :
  with_platform p (campaign_of r) =
  campaign_of
    {| f_name := f_name r; f_platform := JStr p;
       f_cost := Number (cost_or_spend (f_cost r) (f_spend r));
       f_spend := f_spend r; f_clicks := f_clicks r;
       f_impressions := f_impressions r; f_conversions := f_conversions r;
       f_ctr := f_ctr r; f_status := f_status r |}.
Proof.
  unfold with_platform, campaign_of; cbn.
  rewrite or_else_cost_spend. reflexivity.
Qed.

Lemma mapM_total {A B : Type} (f : A -> result B) (l : list A) :
  (forall a, In a l -> exists b, f a = Returns b) ->
  exists bs, mapM f l = Returns bs /\ List.length bs = List.length l.
Proof.
  induction l as [|a l IH]; intros H.
  - exists []; split; reflexivity.
  - destruct (H a (or_introl eq_refl)) as [b Hb].
    destruct IH as [bs [Hbs Hlen]].
    + intros a' Ha'. apply H. right. exact Ha'.
    + exists (b :: bs). cbn. rewrite Hb; cbn. rewrite Hbs; cbn.
      split; [reflexivity | now rewrite Hlen].
Qed.

Example first_mock_campaign_row (rt : Runtime) :
  render_row (mock "Brand Awareness Campaign" 2485.67 312 8945 28 3.49 "ENABLED") rt
  = Returns
      {| name_cell := JStr "Brand Awareness Campaign";
         platform_cell := {| backgroundColor := "#1877f2"; text := JStr "Unknown" |};
         spend_cell := "$" ++ numberToLocaleString rt 2485.67;
         clicks_cell := numberToLocaleString rt 312;
         ctr_cell := toFixed rt 3.49 2 ++ "%";
         conversions_cell := numberToLocaleString rt 28;
         status_cell := {| backgroundColor := "#48bb78"; text := JStr "ENABLED" |} |}.
Proof. reflexivity. Qed.

(** Outside the records above the row is not always rendered: a [ctr] sent
    as text reaches [.toFixed(2)] as a string. *)
Remark render_row_needs_numeric_ctr (r : CampaignFields) (rt : Runtime) :
  render_row
    {| Campaign.name := f_name r; Campaign.platform := f_platform r;
       Campaign.cost := field (f_cost r); Campaign.spend := field (f_spend r);
       Campaign.clicks := field (f_clicks r);
       Campaign.impressions := field (f_impressions r);
       Campaign.conversions := field (f_conversions r);
       Campaign.ctr := JStr "3.49";
       Campaign.status := f_status r |} rt
  = Throws (TypeError "toFixed is not a function").
Proof.
  unfold render_row; cbn [Campaign.cost Campaign.spend Campaign.clicks
                          Campaign.ctr Campaign.conversions].
  rewrite or_else_cost_spend, or_else_field. reflexivity.
Qed.

(** On records whose numeric fields are each absent, null or a number the
    row is known cell by cell: an absent cost falls back to the spend and
    then to 0, absent clicks, ctr and conversions are shown as 0, and every
    list of such records renders to as many rows, before and after the
    platform tagging of the provider lists. *)
Lemma campaign_rows_of_numeric_fields :
  forall (rt : Runtime),
    (forall r : CampaignFields,
        render_row (campaign_of r) rt =
        Returns
          {| name_cell := f_name r;
             platform_cell := platform_badge (campaign_of r);
             spend_cell :=
               "$" ++ numberToLocaleString rt
                        (cost_or_spend (f_cost r) (f_spend r));
             clicks_cell := numberToLocaleString rt (or_zero (f_clicks r));
             ctr_cell := toFixed rt (or_zero (f_ctr r)) 2 ++ "%";
             conversions_cell :=
               numberToLocaleString rt (or_zero (f_conversions r));
             status_cell := status_badge (campaign_of r) |})
    /\ or_zero Missing = 0%float /\ or_zero Null = 0%float
    /\ (forall s, cost_or_spend Missing s = or_zero s)
    /\ (forall s, cost_or_spend Null s = or_zero s)
    /\ (forall (p : string) (rs : list CampaignFields),
          exists rows,
            mapM (fun c => render_row c rt)
                 (map (with_platform p) (map campaign_of rs)) = Returns rows
            /\ List.length rows = List.length rs)
    /\ (forall rs : list CampaignFields,
          exists rows,
            mapM (fun c => render_row c rt) (map campaign_of rs) = Returns rows
            /\ List.length rows = List.length rs).
Proof.
  intro rt.
  split; [intro r; apply render_row_fields|].
  do 4 (split; [reflexivity|]).
  split.
  - intros p rs.
    destruct (mapM_total (fun c => render_row c rt)
                (map (with_platform p) (map campaign_of rs))) as [rows [H L]].
    + intros a Ha. apply in_map_iff in Ha. destruct Ha as [c [<- Hc]].
      apply in_map_iff in Hc. destruct Hc as [r [<- _]].
      rewrite with_platform_fields, render_row_fields. eexists; reflexivity.
    + exists rows. split; [exact H|]. now rewrite L, !length_map.
  - intros rs.
    destruct (mapM_total (fun c => render_row c rt) (map campaign_of rs))
      as [rows [H L]].
    + intros a Ha. apply in_map_iff in Ha. destruct Ha as [r [<- _]].
      rewrite render_row_fields. eexists; reflexivity.
    + exists rows. split; [exact H|]. now rewrite L, length_map.
Qed.

Lemma or_else_nullish (a b : jsval) : is_nullish a = true -> or_else a b = b.
Proof. destruct a; cbn; intro H; try discriminate; reflexivity. Qed.

(** [(v || 0).toLocaleString()] never throws: what [||] lets through is
    truthy, and every truthy value has the method. *)
Lemma toLocaleString_or_zero (a : jsval) (rt : Runtime) :
  exists s, call_toLocaleString (or_else a (JNum 0)) rt = Returns s.
Proof.
  unfold or_else. destruct (truthy a) eqn:T; [|eexists; reflexivity].
  destruct a as [ | | b | x | s]; cbn in T; try discriminate.
  - subst b. eexists; reflexivity.
  - eexists; reflexivity.
  - eexists; reflexivity.
Qed.

(** [(v || 0).toFixed(2)] returns exactly when [v] is falsy or a number. *)
Lemma toFixed_or_zero (a : jsval) (rt : Runtime) :
  (exists s, call_toFixed (or_else a (JNum 0)) 2 rt = Returns s)
  <-> truthy a = false \/ exists x, a = JNum x.
Proof.
  unfold or_else. destruct (truthy a) eqn:T.
  - destruct a as [ | | b | x | s]; cbn in T; try discriminate; cbn.
    + split; [intros [s H]; discriminate|].
      intros [H | [x H]]; discriminate.
    + split; [eauto | intros _; eexists; reflexivity].
    + split; [intros [s' H]; discriminate|].
      intros [H | [x H]]; discriminate.
  - split; [auto | intros _; eexists; reflexivity].
Qed.

Lemma render_row_cells (campaign : Campaign.t) (rt : Runtime) (row : Row) :
  render_row campaign rt = Returns row ->
  exists spend clicks ctr conversions,
    call_toLocaleString
      (or_else (or_else (Campaign.cost campaign) (Campaign.spend campaign))
               (JNum 0)) rt = Returns spend
    /\ call_toLocaleString (or_else (Campaign.clicks campaign) (JNum 0)) rt
       = Returns clicks
    /\ call_toFixed (or_else (Campaign.ctr campaign) (JNum 0)) 2 rt = Returns ctr
    /\ call_toLocaleString (or_else (Campaign.conversions campaign) (JNum 0)) rt
       = Returns conversions
    /\ row = {| name_cell := Campaign.name campaign;
                platform_cell := platform_badge campaign;
                spend_cell := "$" ++ spend;
                clicks_cell := clicks;
                ctr_cell := ctr ++ "%";
                conversions_cell := conversions;
                status_cell := status_badge campaign |}.
Proof.
  unfold render_row. intro H.
  destruct (call_toLocaleString
              (or_else (or_else (Campaign.cost campaign) (Campaign.spend campaign))
                       (JNum 0)) rt) as [s1|]; [cbn [bind] in H | discriminate].
  destruct (call_toLocaleString (or_else (Campaign.clicks campaign) (JNum 0)) rt)
    as [s2|]; [cbn [bind] in H | discriminate].
  destruct (call_toFixed (or_else (Campaign.ctr campaign) (JNum 0)) 2 rt)
    as [s3|]; [cbn [bind] in H | discriminate].
  destruct (call_toLocaleString
              (or_else (Campaign.conversions campaign) (JNum 0)) rt)
    as [s4|]; [cbn [bind] in H | discriminate].
  injection H as <-. exists s1, s2, s3, s4. repeat split.
Qed.

Lemma render_row_returns_iff (campaign : Campaign.t) (rt : Runtime) :
  (exists row, render_row campaign rt = Returns row)
  <-> truthy (Campaign.ctr campaign) = false
      \/ exists x, Campaign.ctr campaign = JNum x.
Proof.
  split.
  - intros [row H]. apply render_row_cells in H.
    destruct H as [s1 [s2 [s3 [s4 [_ [_ [H _]]]]]]].
    apply (toFixed_or_zero _ rt). eauto.
  - intro H. apply (toFixed_or_zero _ rt) in H. destruct H as [s3 H3].
    destruct (toLocaleString_or_zero
                (or_else (Campaign.cost campaign) (Campaign.spend campaign)) rt)
      as [s1 H1].
    destruct (toLocaleString_or_zero (Campaign.clicks campaign) rt) as [s2 H2].
    destruct (toLocaleString_or_zero (Campaign.conversions campaign) rt)
      as [s4 H4].
    unfold render_row. rewrite H1; cbn [bind]. rewrite H2; cbn [bind].
    rewrite H3; cbn [bind]. rewrite H4; cbn [bind]. eauto.
Qed.

(** C5, as stated, fails: a record whose [ctr] arrives as the text "3.49"
    renders no row: [("3.49" || 0).toFixed(2)] is a TypeError in every
    runtime, strings having no [toFixed]. *)
Lemma render_row_throws_on_text_ctr :
  render_row text_ctr_campaign
  = fun _ : Runtime => Throws (TypeError "toFixed is not a function").
Proof. reflexivity. Qed.

(** C5, amended: the table renders a row for a campaign record exactly when
    its [ctr] is absent (or otherwise falsy) or a number, whichever other
    fields are present and whatever they hold; in the row an absent cost
    falls back to the spend, and to 0 when the spend is absent too, and
    absent clicks, ctr and conversions are each shown as 0; on records
    whose numeric fields are absent, null or numbers the whole row is
    known; and a list of records with such [ctr]s renders to as many rows,
    before and after the platform tagging. *)
Theorem campaign_rows_render_unless_ctr_is_not_a_number :
  forall (campaign : Campaign.t) (rt : Runtime),
    ((exists row, render_row campaign rt = Returns row)
     <-> truthy (Campaign.ctr campaign) = false
         \/ exists x, Campaign.ctr campaign = JNum x)
    /\ (forall row, render_row campaign rt = Returns row ->
          (is_nullish (Campaign.cost campaign) = true ->
           exists s,
             call_toLocaleString (or_else (Campaign.spend campaign) (JNum 0)) rt
             = Returns s
             /\ spend_cell row = "$" ++ s)
          /\ (is_nullish (Campaign.cost campaign) = true ->
              is_nullish (Campaign.spend campaign) = true ->
              spend_cell row = "$" ++ numberToLocaleString rt 0)
          /\ (is_nullish (Campaign.clicks campaign) = true ->
              clicks_cell row = numberToLocaleString rt 0)
          /\ (is_nullish (Campaign.ctr campaign) = true ->
              ctr_cell row = toFixed rt 0 2 ++ "%")
          /\ (is_nullish (Campaign.conversions campaign) = true ->
              conversions_cell row = numberToLocaleString rt 0))
    /\ (forall r : CampaignFields,
          render_row (campaign_of r) rt =
          Returns
            {| name_cell := f_name r;
               platform_cell := platform_badge (campaign_of r);
               spend_cell :=
                 "$" ++ numberToLocaleString rt
                          (cost_or_spend (f_cost r) (f_spend r));
               clicks_cell := numberToLocaleString rt (or_zero (f_clicks r));
               ctr_cell := toFixed rt (or_zero (f_ctr r)) 2 ++ "%";
               conversions_cell :=
                 numberToLocaleString rt (or_zero (f_conversions r));
               status_cell := status_badge (campaign_of r) |})
    /\ (forall (p : string) (campaigns : list Campaign.t),
          (forall c, In c campaigns ->
             truthy (Campaign.ctr c) = false \/ exists x, Campaign.ctr c = JNum x) ->
          (exists rows,
              mapM (fun c => render_row c rt) campaigns = Returns rows
              /\ List.length rows = List.length campaigns)
          /\ (exists rows,
                mapM (fun c => render_row c rt) (map (with_platform p) campaigns)
                = Returns rows
                /\ List.length rows = List.length campaigns)).
Proof.
  intros campaign rt.
  split; [apply render_row_returns_iff|].
  split.
  { intros row H. apply render_row_cells in H.
    destruct H as [s1 [s2 [s3 [s4 [H1 [H2 [H3 [H4 ->]]]]]]]].
    cbn [spend_cell clicks_cell ctr_cell conversions_cell].
    split; [|split; [|split; [|split]]].
    - intro Hc. rewrite (or_else_nullish _ _ Hc) in H1. eauto.
    - intros Hc Hs.
      rewrite (or_else_nullish _ _ Hc), (or_else_nullish _ _ Hs) in H1.
      cbn in H1. now injection H1 as <-.
    - intro Hc. rewrite (or_else_nullish _ _ Hc) in H2.
      cbn in H2. now injection H2 as <-.
    - intro Hc. rewrite (or_else_nullish _ _ Hc) in H3.
      cbn in H3. now injection H3 as <-.
    - intro Hc. rewrite (or_else_nullish _ _ Hc) in H4.
      cbn in H4. now injection H4 as <-. }
  split; [intro r; apply render_row_fields|].
  intros p campaigns Hall. split.
  - apply mapM_total. intros c Hc. apply render_row_returns_iff. auto.
  - destruct (mapM_total (fun c => render_row c rt)
                (map (with_platform p) campaigns)) as [rows [H L]].
    + intros c Hc. apply in_map_iff in Hc. destruct Hc as [c0 [<- Hc0]].
      apply render_row_returns_iff. cbn [with_platform Campaign.ctr]. auto.
    + exists rows. split; [exact H | now rewrite L, length_map].
Qed.

End CampaignTableProperties.

Section DashboardProperties.

Local Open Scope string_scope.

Lemma getRoleMetrics_without_key_metrics (d : KpiData.t) (role : jsval)
      (random : float) :
  getRoleMetrics None role random = []
  /\ (KpiData.key_metrics d = None -> getRoleMetrics (Some d) role random = []).
Proof.
  split; [reflexivity|]. intro H. unfold getRoleMetrics. now rewrite H.
Qed.

(** C6: from a response with [key_metrics], the finance cards read exactly
    total_ad_spend, total_revenue, roas and cost_per_conversion; the marketing
    cards read total_impressions, total_clicks, ctr, total_sessions,
    bounce_rate and conversion_rate; every other role, admin included, gets
    total_ad_spend, total_revenue, total_impressions, total_clicks,
    total_sessions and roas; so roas is on both the admin and the finance
    dashboards. *)
Theorem getRoleMetrics_projection :
  forall (d : KpiData.t) (metrics : KeyMetrics.t) (role : jsval) (random : float),
    KpiData.key_metrics d = Some metrics ->
    (role = JStr "finance" ->
       map value (getRoleMetrics (Some d) role random) =
       [ KeyMetrics.total_ad_spend metrics; KeyMetrics.total_revenue metrics;
         KeyMetrics.roas metrics; KeyMetrics.cost_per_conversion metrics ])
    /\ (role = JStr "marketing" ->
       map value (getRoleMetrics (Some d) role random) =
       [ KeyMetrics.total_impressions metrics; KeyMetrics.total_clicks metrics;
         KeyMetrics.ctr metrics; KeyMetrics.total_sessions metrics;
         KeyMetrics.bounce_rate metrics; KeyMetrics.conversion_rate metrics ])
    /\ (role <> JStr "finance" -> role <> JStr "marketing" ->
       map value (getRoleMetrics (Some d) role random) =
       [ KeyMetrics.total_ad_spend metrics; KeyMetrics.total_revenue metrics;
         KeyMetrics.total_impressions metrics; KeyMetrics.total_clicks metrics;
         KeyMetrics.total_sessions metrics; KeyMetrics.roas metrics ])
    /\ (forall m,
          In m (getRoleMetrics (Some d) (JStr "admin") random)
          \/ In m (getRoleMetrics (Some d) (JStr "finance") random) ->
          title m = "ROAS" -> value m = KeyMetrics.roas metrics)
    /\ (exists m, In m (getRoleMetrics (Some d) (JStr "admin") random)
                  /\ title m = "ROAS")
    /\ (exists m, In m (getRoleMetrics (Some d) (JStr "finance") random)
                  /\ title m = "ROAS").
Proof.
  intros d metrics role random Hkm.
  assert (Hne : forall lit, role <> JStr lit -> strict_eq_str role lit = false).
  { intros lit H. destruct role as [ | | b | x | s]; try reflexivity.
    cbn. apply String.eqb_neq. intro E. apply H. now subst. }
  repeat split.
  - intros ->. cbn. rewrite Hkm. reflexivity.
  - intros ->. cbn. rewrite Hkm. reflexivity.
  - intros Hf Hm. unfold getRoleMetrics. rewrite Hkm, (Hne _ Hf), (Hne _ Hm).
    reflexivity.
  - intros m Hin Ht. cbn in Hin. rewrite Hkm in Hin. cbn in Hin.
    decompose [or] Hin; subst; cbn in *; try reflexivity; try discriminate;
      try contradiction.
  - cbn. rewrite Hkm. eexists. split; [do 5 right; left; reflexivity | reflexivity].
  - cbn. rewrite Hkm. eexists. split; [do 2 right; left; reflexivity | reflexivity].
Qed.


Lemma getRoleMetrics_projection_witness :
  KpiData.key_metrics sample_data = Some sample_metrics
  /\ map value (getRoleMetrics (Some sample_data) (JStr "admin") 0.5) =
     [ JNum 100; JNum 250; JNum 8945; JNum 312; JNum 1000; JNum 2.5 ].
Proof.
  split; [reflexivity|].
  refine (proj1 (proj2 (proj2
    (getRoleMetrics_projection sample_data sample_metrics (JStr "admin") 0.5
       eq_refl))) _ _); discriminate.
Defined.

(** C7: the status badge has the running colour exactly for the statuses
    ENABLED and ACTIVE, which are therefore interchangeable, and its text is
    the campaign's own status string, or UNKNOWN when the status is absent
    (or empty); the rendered row carries that badge. *)
Theorem status_badge_running_iff_enabled_or_active :
  forall campaign : Campaign.t,
    (backgroundColor (status_badge campaign) = "#48bb78"
     <-> Campaign.status campaign = JStr "ENABLED"
         \/ Campaign.status campaign = JStr "ACTIVE")
    /\ (backgroundColor (status_badge campaign) = "#48bb78"
        \/ backgroundColor (status_badge campaign) = "#f56565")
    /\ (forall s, Campaign.status campaign = JStr s -> s <> "" ->
          text (status_badge campaign) = JStr s)
    /\ (Campaign.status campaign = JUndefined
        \/ Campaign.status campaign = JNull
        \/ Campaign.status campaign = JStr "" ->
        text (status_badge campaign) = JStr "UNKNOWN")
    /\ (forall rt row, render_row campaign rt = Returns row ->
          status_cell row = status_badge campaign).
Proof.
  intro campaign. unfold status_badge; cbn.
  assert (Hlit : forall lit, strict_eq_str (Campaign.status campaign) lit = true
                             <-> Campaign.status campaign = JStr lit).
  { intro lit. destruct (Campaign.status campaign) as [ | | b | x | s]; cbn;
      try (split; [discriminate | discriminate]).
    rewrite String.eqb_eq. split; [now intros -> | now intros [= ->]]. }
  split; [|split; [|split; [|split]]].
  - destruct (strict_eq_str (Campaign.status campaign) "ENABLED") eqn:E1;
      [ split; [left; now apply Hlit | reflexivity] |].
    destruct (strict_eq_str (Campaign.status campaign) "ACTIVE") eqn:E2;
      [ split; [right; now apply Hlit | reflexivity] |].
    cbn. split; [discriminate|].
    intros [H | H]; apply Hlit in H; congruence.
  - destruct (strict_eq_str (Campaign.status campaign) "ENABLED"
              || strict_eq_str (Campaign.status campaign) "ACTIVE");
      [left | right]; reflexivity.
  - intros s -> Hs. unfold or_else; cbn.
    apply String.eqb_neq in Hs. now rewrite Hs.
  - intros [-> | [-> | ->]]; reflexivity.
  - intros rt row H. unfold render_row in H.
    destruct (call_toLocaleString _ rt); [cbn in H | discriminate].
    destruct (call_toLocaleString _ rt); [cbn in H | discriminate].
    destruct (call_toFixed _ 2 rt); [cbn in H | discriminate].
    destruct (call_toLocaleString _ rt); [cbn in H | discriminate].
    injection H as <-. reflexivity.
Qed.

Lemma api_campaign_platform (kpiData : option KpiData.t) (c : Campaign.t) :
  In c (apiCampaigns kpiData) ->
  Campaign.platform c = JStr "Google Ads" \/ Campaign.platform c = JStr "Meta Ads".
Proof.
  unfold apiCampaigns, googleAdsCampaigns, metaAdsCampaigns.
  intro H. apply in_app_or in H.
  destruct H as [H | H]; apply in_map_iff in H; destruct H as [c0 [<- _]];
    [left | right]; reflexivity.
Qed.

Lemma mock_campaign_platform (c : Campaign.t) :
  In c mockCampaigns -> Campaign.platform c = JUndefined.
Proof.
  unfold mockCampaigns. cbn [In].
  intro H. decompose [or] H; subst; try reflexivity. contradiction.
Qed.

Lemma apiCampaigns_nil (kpiData : option KpiData.t) :
  apiCampaigns kpiData = []
  <-> campaigns_of (source_of KpiData.google_ads kpiData) = []
      /\ campaigns_of (source_of KpiData.meta_ads kpiData) = [].
Proof.
  unfold apiCampaigns, googleAdsCampaigns, metaAdsCampaigns. split.
  - intro H. apply app_eq_nil in H. destruct H as [H1 H2].
    split; eapply map_eq_nil; eassumption.
  - intros [-> ->]. reflexivity.
Qed.

Lemma campaignsToShow_cases (kpiData : option KpiData.t) :
  (apiCampaigns kpiData = []
   /\ campaignsToShow kpiData = mockCampaigns
   /\ isUsingMockData kpiData = true)
  \/ (apiCampaigns kpiData <> []
      /\ campaignsToShow kpiData = apiCampaigns kpiData
      /\ isUsingMockData kpiData = false).
Proof.
  unfold campaignsToShow, isUsingMockData.
  destruct (apiCampaigns kpiData) as [|c l]; [left | right]; cbn;
    repeat split; discriminate.
Qed.

Example demo_table_without_data (rt : Runtime) :
  exists rows,
    campaign_section None (JStr "admin") rt
    = Returns (Some {| demo_notice := true; rows := rows |})
    /\ List.length rows = 6%nat
    /\ campaign_section None (JStr "finance") rt = Returns None.
Proof. eexists. repeat split. Qed.

(** C8: the admin table shows the hard-coded demo campaigns exactly when
    the google_ads and meta_ads campaign lists are both empty (or missing),
    the "Demo Data" notice is rendered in exactly that case, and otherwise
    the rows are the providers' campaigns alone, none of them a demo one. *)
Theorem mock_campaigns_iff_no_provider_campaigns :
  forall kpiData : option KpiData.t,
    let google := campaigns_of (source_of KpiData.google_ads kpiData) in
    let meta := campaigns_of (source_of KpiData.meta_ads kpiData) in
    (campaignsToShow kpiData = mockCampaigns <-> google = [] /\ meta = [])
    /\ (isUsingMockData kpiData = true <-> google = [] /\ meta = [])
    /\ (forall rt table, campaign_table kpiData rt = Returns table ->
          (demo_notice table = true <-> google = [] /\ meta = []))
    /\ (campaignsToShow kpiData = mockCampaigns
        \/ campaignsToShow kpiData =
             (map (with_platform "Google Ads") google
              ++ map (with_platform "Meta Ads") meta)%list
           /\ (forall c, In c (campaignsToShow kpiData) ->
                 In c mockCampaigns -> False)).
Proof.
  intros kpiData google meta.
  pose proof (apiCampaigns_nil kpiData) as Hnil. fold google meta in Hnil.
  assert (Hmock : isUsingMockData kpiData = true <-> google = [] /\ meta = []).
  { destruct (campaignsToShow_cases kpiData) as [[Ha [_ Hb]] | [Ha [_ Hb]]];
      rewrite Hb; split; try discriminate; tauto. }
  split; [|split; [exact Hmock|split]].
  - destruct (campaignsToShow_cases kpiData) as [[Ha [Hs _]] | [Ha [Hs _]]].
    + split; [intros _; now apply Hnil | intros _; exact Hs].
    + split; [|intro H; apply Hnil in H; contradiction].
      rewrite Hs. intro E. exfalso.
      destruct (apiCampaigns kpiData) as [|c l] eqn:Eapi; [now apply Ha|].
      assert (Hin : In c (apiCampaigns kpiData)) by (rewrite Eapi; now left).
      apply api_campaign_platform in Hin.
      assert (Hm : In c mockCampaigns) by (rewrite <- E; now left).
      apply mock_campaign_platform in Hm. rewrite Hm in Hin.
      destruct Hin; discriminate.
  - intros rt table H. unfold campaign_table in H.
    destruct (mapM _ (campaignsToShow kpiData)); [cbn in H | discriminate].
    injection H as <-. exact Hmock.
  - destruct (campaignsToShow_cases kpiData) as [[Ha [Hs _]] | [Ha [Hs _]]];
      [left; exact Hs | right].
    split; [exact Hs|].
    intros c Hin Hm. rewrite Hs in Hin.
    apply api_campaign_platform in Hin.
    apply mock_campaign_platform in Hm. rewrite Hm in Hin.
    destruct Hin; discriminate.
Qed.

Lemma slice_last_30 {A : Type} (l : list A) :
  slice_from (-30) l = skipn (List.length l - Nat.min 30 (List.length l)) l.
Proof.
  unfold slice_from. cbn [Z.ltb Z.compare].
  f_equal. lia.
Qed.

Example slice_keeps_the_last_30 :
  rev (slice_from (-30) (seq 1 32)) = rev (seq 3 30)
  /\ rev (slice_from (-30) (seq 1 4)) = [4; 3; 2; 1]%nat
  /\ slice_from (-30) (@nil nat) = [].
Proof. repeat split. Qed.

(** C10: every chart of the dashboard plots the same series, which is taken
    from the google_ads source's historical_data only: for a list of n
    entries it is the last min(30, n) of them in reversed order (the i-th
    plotted entry is entry n-1-i of the list), and it is empty when the
    response, its google_ads part or the historical_data is absent. *)
Theorem charts_plot_last_30_google_ads_days_reversed :
  forall (kpiData : option KpiData.t) (role : jsval) (rt : Runtime),
    let h := chartData kpiData in
    let n := List.length h in
    (forall c, In c (charts kpiData role rt) -> chart_data c = last30Days kpiData)
    /\ last30Days kpiData = rev (skipn (n - Nat.min 30 n) h)
    /\ List.length (last30Days kpiData) = Nat.min 30 n
    /\ (forall i, (i < Nat.min 30 n)%nat ->
          nth_error (last30Days kpiData) i = nth_error h (n - 1 - i))
    /\ h = match kpiData with
           | Some d =>
             match KpiData.google_ads d with
             | Some g =>
               match Source.historical_data g with
               | Some entries => entries
               | None => []
               end
             | None => []
             end
           | None => []
           end
    /\ (h = [] -> last30Days kpiData = [])
    /\ (forall d d' : KpiData.t,
          KpiData.google_ads d = KpiData.google_ads d' ->
          charts (Some d) role rt = charts (Some d') role rt).
Proof.
  intros kpiData role rt h n.
  assert (Hlast : last30Days kpiData = rev (skipn (n - Nat.min 30 n) h)).
  { unfold last30Days. now rewrite slice_last_30. }
  assert (Hlen : List.length (last30Days kpiData) = Nat.min 30 n).
  { rewrite Hlast, length_rev, length_skipn. fold n. lia. }
  split; [|split; [exact Hlast|split; [exact Hlen|split; [|split; [|split]]]]].
  - intros c Hin. unfold charts in Hin.
    repeat (apply in_app_or in Hin; destruct Hin as [Hin | Hin]);
      try (destruct (_ || _)%bool); try (destruct (strict_eq_str role _));
      cbn in Hin; decompose [or] Hin; subst; try reflexivity; contradiction.
  - intros i Hi. rewrite Hlast, nth_error_rev, length_skipn. fold n.
    assert (Hlt : (i <? n - (n - Nat.min 30 n))%nat = true)
      by (apply Nat.ltb_lt; lia).
    rewrite Hlt, nth_error_skipn. f_equal. lia.
  - destruct kpiData as [d|]; reflexivity.
  - intro H. rewrite Hlast. unfold n. rewrite H. reflexivity.
  - intros d d' H. unfold charts, last30Days, chartData. now rewrite H.
Qed.

End DashboardProperties.

(** * Properties of the aggregation and caching layer *)

Section AggregatorProperties.


Lemma divide_nonzero (a b : Q) :
  Qeq_bool b 0 = false -> divide a b = Ok (a / b)%Q.
Proof. unfold divide. now intros ->. Qed.

Lemma ctr_of_value (t : Totals) :
  ctr_of t =
  Ok (if Qeq_bool (total_impressions t) 0 then 0
      else total_clicks t / total_impressions t * 100)%Q.
Proof.
  unfold ctr_of. destruct (Qeq_bool (total_impressions t) 0) eqn:E;
    [reflexivity | now rewrite (divide_nonzero _ _ E)].
Qed.

Lemma roas_of_value (t : Totals) :
  roas_of t =
  Ok (if Qeq_bool (total_ad_spend t) 0 then 0
      else total_revenue t / total_ad_spend t)%Q.
Proof.
  unfold roas_of. destruct (Qeq_bool (total_ad_spend t) 0) eqn:E;
    [reflexivity | now rewrite (divide_nonzero _ _ E)].
Qed.

Lemma cost_per_conversion_of_value (t : Totals) :
  cost_per_conversion_of t =
  Ok (if Qeq_bool (total_conversions t) 0 then 0
      else total_ad_spend t / total_conversions t)%Q.
Proof.
  unfold cost_per_conversion_of.
  destruct (Qeq_bool (total_conversions t) 0) eqn:E;
    [reflexivity | now rewrite (divide_nonzero _ _ E)].
Qed.

Lemma conversion_rate_of_value (t : Totals) :
  conversion_rate_of t =
  Ok (if Qeq_bool (total_clicks t) 0 then 0
      else total_conversions t / total_clicks t * 100)%Q.
Proof.
  unfold conversion_rate_of. destruct (Qeq_bool (total_clicks t) 0) eqn:E;
    [reflexivity | now rewrite (divide_nonzero _ _ E)].
Qed.

Lemma derive_total (outs : PerSource) :
  exists km, derive outs = Ok km
             /\ totals km = combine outs
             /\ roas_of (combine outs) = Ok (roas km)
             /\ ctr_of (combine outs) = Ok (ctr km)
             /\ cost_per_conversion_of (combine outs) = Ok (cost_per_conversion km)
             /\ conversion_rate_of (combine outs) = Ok (conversion_rate km)
             /\ bounce_rate km = bounce_rate_of outs.
Proof.
  unfold derive.
  rewrite roas_of_value, ctr_of_value, cost_per_conversion_of_value,
    conversion_rate_of_value.
  eexists. repeat split.
Qed.

Lemma guarded (d v : Q) (x : Q) :
  (if Qeq_bool d 0 then 0 else v)%Q = x ->
  (d == 0 -> x = 0%Q) /\ (~ d == 0 -> x = v).
Proof.
  intros <-. destruct (Qeq_bool d 0) eqn:E.
  - apply Qeq_bool_iff in E. split; [reflexivity | contradiction].
  - apply Qeq_bool_neq in E. split; [contradiction | reflexivity].
Qed.

(** C2: for all aggregated totals each derived ratio is a value, never a
    division error: ctr is total_clicks / total_impressions * 100, roas is
    total_revenue / total_ad_spend, cost_per_conversion is
    total_ad_spend / total_conversions, conversion_rate is
    total_conversions / total_clicks * 100, and each is 0 when its
    denominator is 0; the key metrics of every aggregation carry these
    values. *)
Theorem derived_ratios_divide_with_zero_guard :
  forall t : Totals,
    (exists v, ctr_of t = Ok v
       /\ (total_impressions t == 0 -> v = 0%Q)
       /\ (~ total_impressions t == 0 ->
           v = (total_clicks t / total_impressions t * 100)%Q))
    /\ (exists v, roas_of t = Ok v
       /\ (total_ad_spend t == 0 -> v = 0%Q)
       /\ (~ total_ad_spend t == 0 ->
           v = (total_revenue t / total_ad_spend t)%Q))
    /\ (exists v, cost_per_conversion_of t = Ok v
       /\ (total_conversions t == 0 -> v = 0%Q)
       /\ (~ total_conversions t == 0 ->
           v = (total_ad_spend t / total_conversions t)%Q))
    /\ (exists v, conversion_rate_of t = Ok v
       /\ (total_clicks t == 0 -> v = 0%Q)
       /\ (~ total_clicks t == 0 ->
           v = (total_conversions t / total_clicks t * 100)%Q))
    /\ (forall outs : PerSource, combine outs = t ->
          exists km, derive outs = Ok km
                     /\ ctr_of t = Ok (ctr km)
                     /\ roas_of t = Ok (roas km)
                     /\ cost_per_conversion_of t = Ok (cost_per_conversion km)
                     /\ conversion_rate_of t = Ok (conversion_rate km)).
Proof.
  intro t.
  split; [|split; [|split; [|split]]].
  - eexists. split; [apply ctr_of_value | now apply guarded].
  - eexists. split; [apply roas_of_value | now apply guarded].
  - eexists. split; [apply cost_per_conversion_of_value | now apply guarded].
  - eexists. split; [apply conversion_rate_of_value | now apply guarded].
  - intros outs <-.
    destruct (derive_total outs) as [km [H [_ [Hr [Hc [Hp [Hv _]]]]]]].
    exists km. repeat split; assumption.
Qed.


Example scenario_key_metrics :
  exists km, derive scenario = Ok km
             /\ roas km == 2.5
             /\ bounce_rate km == 45.2
             /\ total_revenue (totals km) == 250
             /\ ctr km = 0%Q.
Proof. eexists. split; [reflexivity|]. repeat split; reflexivity. Qed.

End AggregatorProperties.

Section CacheProperties.

Local Open Scope Z_scope.

Lemma get_put_fresh (c : Cache) (s : KpiSnapshot) (t0 t : time) :
  t - t0 < TTL -> get t (put t0 s c) = (Some (stamped t0 s), put t0 s c).
Proof.
  intro H. unfold get, put; cbn.
  apply Z.ltb_lt in H. now rewrite H.
Qed.

Lemma get_put_expired (c : Cache) (s : KpiSnapshot) (t0 t : time) :
  TTL <= t - t0 -> get t (put t0 s c) = (None, put t0 s c).
Proof.
  intro H. unfold get, put; cbn.
  apply Z.ltb_ge in H. now rewrite H.
Qed.

Lemma aggregate_all_failed (now : time) (outs : PerSource) :
  all_failed outs = true -> aggregate now outs = Fails AllSourcesUnavailable.
Proof. unfold aggregate. now intros ->. Qed.

Lemma aggregate_some_succeeded (now : time) (outs : PerSource) :
  all_failed outs = false ->
  exists km, derive outs = Ok km
             /\ aggregate now outs =
                Ok {| key_metrics := km; per_source := outs; created_at := now |}.
Proof.
  intro H. unfold aggregate. rewrite H.
  destruct (derive_total outs) as [km [Hd _]].
  exists km. now rewrite Hd.
Qed.

(** C3: a snapshot stored at [t0] is what [get] returns at every [t] with
    [t - t0 < TTL], the TTL being 300 seconds, and an unforced [getSnapshot]
    then answers from the cache; at every [t] with [t - t0 >= TTL], [get]
    signals Empty and leaves the cache as it is, stale entry included, an
    unforced [getSnapshot] goes to a refresh, and if that refresh finds every
    provider failing the stale snapshot is what is served. *)
Theorem cache_ttl_boundary :
  forall (c : Cache) (s : KpiSnapshot) (t0 t : time),
    let c' := put t0 s c in
    TTL = 300
    /\ (t - t0 < TTL ->
        get t c' = (Some (stamped t0 s), c')
        /\ isExpired t c' = false
        /\ forall outs,
             getSnapshot false t outs c' =
             (Served (stamped t0 s) (stats t (count_hit c')), count_hit c'))
    /\ (TTL <= t - t0 ->
        get t c' = (None, c')
        /\ isExpired t c' = true
        /\ entry (snd (get t c')) = Some (stamped t0 s)
        /\ (forall outs,
              getSnapshot false t outs c' = refresh t outs (count_miss c'))
        /\ (forall outs, all_failed outs = true ->
              getSnapshot false t outs c' =
              (Served (stamped t0 s) (stats t (count_miss c')), count_miss c'))).
Proof.
  intros c s t0 t c'.
  split; [reflexivity|]. split.
  - intro H. pose proof (get_put_fresh c s t0 t H) as Hget. fold c' in Hget.
    split; [exact Hget|]. split.
    + unfold isExpired, c', put; cbn. apply Z.leb_gt. exact H.
    + intro outs. unfold getSnapshot. now rewrite Hget.
  - intro H. pose proof (get_put_expired c s t0 t H) as Hget. fold c' in Hget.
    split; [exact Hget|]. split; [|split; [|split]].
    + unfold isExpired, c', put; cbn. apply Z.leb_le. exact H.
    + now rewrite Hget.
    + intro outs. unfold getSnapshot. now rewrite Hget.
    + intros outs Hfail. unfold getSnapshot. rewrite Hget; cbn.
      unfold refresh. now rewrite (aggregate_all_failed _ _ Hfail).
Qed.

(** C4: [getSnapshot] fails, and then with AllSourcesUnavailable, exactly
    when every provider fails and the cache holds no prior snapshot; when a
    provider succeeds or a prior snapshot exists it returns a snapshot; a
    refresh with a successful provider returns the snapshot built from the
    sources that answered; when every provider fails the prior snapshot is
    returned with its age in the statistics, which is at least the TTL when
    that snapshot is stale. *)
Theorem getSnapshot_fails_iff_all_fail_and_no_prior :
  forall (force : bool) (now : time) (outs : PerSource) (c : Cache),
    let resp := fst (getSnapshot force now outs c) in
    (resp = Failed AllSourcesUnavailable
     <-> all_failed outs = true /\ entry c = None)
    /\ (forall e, resp = Failed e ->
          e = AllSourcesUnavailable /\ all_failed outs = true /\ entry c = None)
    /\ (all_failed outs = false \/ (exists prior, entry c = Some prior) ->
        exists snapshot cache_stats, resp = Served snapshot cache_stats)
    /\ (all_failed outs = false ->
        force = true \/ isExpired now c = true ->
        exists km cache_stats,
          derive outs = Ok km
          /\ resp = Served {| key_metrics := km; per_source := outs;
                              created_at := now |} cache_stats)
    /\ (forall prior, all_failed outs = true -> entry c = Some prior ->
          exists cache_stats,
            resp = Served prior cache_stats
            /\ has_data cache_stats = true
            /\ age_seconds cache_stats = Some (now - created_at prior)
            /\ ttl_seconds cache_stats = TTL
            /\ (isExpired now c = true -> TTL <= now - created_at prior)).
Proof.
  intros force now outs c resp.
  assert (Hcases :
    (exists s, (if force then None else fst (get now c)) = Some s
               /\ entry c = Some s /\ isExpired now c = false /\ force = false
               /\ resp = Served s (stats now (count_hit c)))
    \/ ((if force then None else fst (get now c)) = None
        /\ (force = true \/ isExpired now c = true)
        /\ resp = fst (refresh now outs (count_miss c)))).
  { unfold resp, getSnapshot, get, isExpired.
    destruct force; [right; repeat split; now left|].
    destruct (entry c) as [s|] eqn:E; [|right; repeat split; now right].
    destruct (now - created_at s <? TTL) eqn:L; cbn.
    - left. exists s. apply Z.ltb_lt in L.
      repeat split. apply Z.leb_gt. exact L.
    - right. apply Z.ltb_ge in L. repeat split. right. apply Z.leb_le. exact L. }
  assert (Hrefresh :
    fst (refresh now outs (count_miss c)) =
    if all_failed outs
    then match entry c with
         | Some prior => Served prior (stats now (count_miss c))
         | None => Failed AllSourcesUnavailable
         end
    else match derive outs with
         | Ok km => Served {| key_metrics := km; per_source := outs;
                              created_at := now |}
                           (stats now (put now {| key_metrics := km;
                                                  per_source := outs;
                                                  created_at := now |}
                                           (count_miss c)))
         | Fails e => Failed e
         end).
  { unfold refresh. destruct (all_failed outs) eqn:F.
    - rewrite (aggregate_all_failed _ _ F). cbn. now destruct (entry c).
    - destruct (aggregate_some_succeeded now outs F) as [km [Hd Ha]].
      rewrite Ha, Hd. reflexivity. }
  destruct Hcases as [[s [_ [He [Hx [Hf Hr]]]]] | [_ [Hwhy Hr]]].
  - (* cache hit *)
    rewrite Hr. split; [|split; [|split; [|split]]].
    + split; [discriminate | intros [_ H]; congruence].
    + discriminate.
    + intros _. eauto.
    + intros _ [H | H]; congruence.
    + intros prior _ Hp. rewrite He in Hp. injection Hp as <-.
      eexists. split; [reflexivity|]. cbn. rewrite He.
      repeat split. intro H. congruence.
  - (* refresh *)
    rewrite Hr, Hrefresh.
    destruct (all_failed outs) eqn:F.
    + destruct (entry c) as [prior|] eqn:E.
      * split; [|split; [|split; [|split]]].
        -- split; [discriminate | intros [_ H]; discriminate].
        -- discriminate.
        -- intros _. eauto.
        -- discriminate.
        -- intros p _ [= <-]. eexists. split; [reflexivity|]. cbn. rewrite E.
           repeat split. unfold isExpired. rewrite E. apply Z.leb_le.
      * split; [|split; [|split; [|split]]].
        -- split; auto.
        -- intros e [= <-]. auto.
        -- intros [H | [p H]]; discriminate.
        -- discriminate.
        -- discriminate.
    + destruct (derive_total outs) as [km [Hd _]]. rewrite Hd.
      split; [|split; [|split; [|split]]].
      * split; [discriminate | intros [H _]; discriminate].
      * discriminate.
      * intros _. eauto.
      * intros _ _. eauto.
      * discriminate.
Qed.

End CacheProperties.

Section SingleFlightProperties.

Local Open Scope nat_scope.


Lemma get_count_miss (now : time) (c : Cache) :
  fst (get now (count_miss c)) = fst (get now c).
Proof.
  unfold get, count_miss; cbn.
  destruct (entry c) as [s|]; [|reflexivity].
  now destruct (now - created_at s <? TTL)%Z.
Qed.

Lemma needs_refresh_count_miss (c : Cache) (r : Req) :
  needs_refresh c r -> needs_refresh (count_miss c) r.
Proof.
  unfold needs_refresh. rewrite get_count_miss. tauto.
Qed.

Lemma arrive_needing_refresh (r : Req) (st : System) :
  needs_refresh (cache st) r ->
  arrive r st =
  {| cache := count_miss (cache st);
     in_flight := Some (waiting_callers st ++ [who r]);
     rounds_started := rounds_started st + (1 - running st);
     rounds_completed := rounds_completed st;
     responses := responses st |}.
Proof.
  intro H. unfold arrive, waiting_callers, running.
  assert (E : (if forceRefresh r then None
               else fst (get (at_time r) (cache st))) = None).
  { destruct H as [-> | H]; [reflexivity|]. rewrite H. now destruct (forceRefresh r). }
  rewrite E.
  destruct (in_flight st); cbn; f_equal; lia.
Qed.

(** Every one of a burst of calls that need a refresh ends up suspended on
    the same refresh; only the first can have started it. *)
Lemma burst_joins_one_refresh (reqs : list Req) :
  forall st : System,
    reqs <> [] ->
    (forall r, In r reqs -> needs_refresh (cache st) r) ->
    let st' := run st (map Request reqs) in
    in_flight st' = Some (waiting_callers st ++ map who reqs)
    /\ rounds_started st' = rounds_started st + (1 - running st)
    /\ rounds_completed st' = rounds_completed st
    /\ responses st' = responses st
    /\ entry (cache st') = entry (cache st).
Proof.
  induction reqs as [|r reqs IH]; intros st Hne Hall; [contradiction|].
  cbn [map run fold_left step].
  pose proof (arrive_needing_refresh r st (Hall r (or_introl eq_refl))) as Ha.
  destruct reqs as [|r' reqs'].
  - cbn. rewrite Ha. cbn. repeat split.
  - specialize (IH (arrive r st)).
    assert (Hne' : r' :: reqs' <> []) by discriminate.
    assert (Hall' : forall q, In q (r' :: reqs') ->
                              needs_refresh (cache (arrive r st)) q).
    { intros q Hq. rewrite Ha. cbn [cache].
      apply needs_refresh_count_miss. apply Hall. now right. }
    specialize (IH Hne' Hall'). cbn zeta in IH. unfold run in IH.
    destruct IH as [H1 [H2 [H3 [H4 H5]]]].
    rewrite H1, H2, H3, H4, H5, Ha. cbn.
    rewrite <- app_assoc. repeat split. lia.
Qed.

Lemma step_keeps_rounds_balanced (st : System) (e : Event) :
  rounds_started st = rounds_completed st + running st ->
  rounds_started (step st e) = rounds_completed (step st e) + running (step st e).
Proof.
  intro H. destruct e as [r | now outs | ]; cbn.
  - unfold arrive, running in *.
    destruct (if forceRefresh r then None else fst (get (at_time r) (cache st)));
      [exact H|].
    destruct (in_flight st); cbn; lia.
  - unfold complete, running in *.
    destruct (in_flight st) eqn:E; [|now rewrite E].
    destruct (refresh now outs (cache st)); cbn. lia.
  - exact H.
Qed.

Lemma rounds_balanced (events : list Event) :
  forall st : System,
    rounds_started st = rounds_completed st + running st ->
    rounds_started (run st events)
    = rounds_completed (run st events) + running (run st events).
Proof.
  induction events as [|e events IH]; intros st H; [exact H|].
  cbn. apply IH. now apply step_keeps_rounds_balanced.
Qed.

(** A caller running alone goes through the two events of the machine to
    what [getSnapshot] computes. *)
Lemma lone_caller_runs_getSnapshot (st : System) (r : Req) (outs : PerSource) :
  in_flight st = None ->
  let st' := run st [Request r; RefreshCompletes (at_time r) outs] in
  let call := getSnapshot (forceRefresh r) (at_time r) outs (cache st) in
  cache st' = snd call
  /\ responses st' = (responses st ++ [(who r, fst call)])%list
  /\ in_flight st' = None.
Proof.
  intros Hidle st' call. unfold st', call, run; cbn [fold_left step].
  unfold arrive, getSnapshot.
  destruct (if forceRefresh r then None else fst (get (at_time r) (cache st)))
    as [s|].
  - unfold complete; cbn [in_flight]. rewrite Hidle. cbn. auto.
  - rewrite Hidle. unfold complete; cbn [in_flight cache responses].
    destruct (refresh (at_time r) outs (count_miss (cache st))) as [resp c'].
    cbn. auto.
Qed.

Example stale_snapshot_outlives_a_failed_refresh :
  let down := {| google_ads := None; meta_ads := None; analytics := None |} in
  let c := put 0%Z expired_snapshot empty in
  fst (get 400%Z c) = None
  /\ fst (getSnapshot false 400%Z down c)
     = Served expired_snapshot
              {| has_data := true; age_seconds := Some 400%Z; ttl_seconds := 300%Z;
                 hits := 0; misses := 1 |}
  /\ fst (getSnapshot true 400%Z down empty) = Failed AllSourcesUnavailable.
Proof. repeat split. Qed.

(** C1: whatever the interleaving of calls, completions and cache clears,
    the rounds of provider calls started exceed those completed by at most
    one, the one in flight.  When N >= 1 calls arrive that the cache cannot
    answer (forced, or the entry missing or expired at the time of the call),
    with or without a refresh already running, exactly one round covers
    them: one is started if none was running, none otherwise; none is
    started by the completion; and that completion hands the same response
    to every caller suspended on the refresh, the N among them. *)
Theorem single_flight_refresh :
  forall (st : System) (reqs : list Req) (now : time) (outs : PerSource),
    (1 <= List.length reqs)%nat ->
    (forall r, In r reqs -> needs_refresh (cache st) r) ->
    let st1 := run st (map Request reqs) in
    let st2 := step st1 (RefreshCompletes now outs) in
    rounds_started st1 = rounds_started st + (1 - running st)
    /\ rounds_started st2 = rounds_started st1
    /\ in_flight st1 = Some (waiting_callers st ++ map who reqs)
    /\ in_flight st2 = None
    /\ (exists resp,
          responses st2 =
          (responses st
           ++ map (fun w => (w, resp)) (waiting_callers st ++ map who reqs))%list
          /\ resp = fst (refresh now outs (cache st1)))
    /\ (forall events,
          let s := run initial events in
          rounds_started s = rounds_completed s + running s
          /\ running s <= 1).
Proof.
  intros st reqs now outs Hlen Hall st1 st2.
  assert (Hne : reqs <> []) by (destruct reqs; [cbn in Hlen; lia | discriminate]).
  destruct (burst_joins_one_refresh reqs st Hne Hall) as [H1 [H2 [H3 [H4 H5]]]].
  fold st1 in H1, H2, H3, H4, H5.
  assert (Hst2 : st2 = complete now outs st1) by reflexivity.
  unfold complete in Hst2. rewrite H1 in Hst2.
  destruct (refresh now outs (cache st1)) as [resp c'] eqn:R.
  split; [exact H2|]. split; [now rewrite Hst2|]. split; [exact H1|].
  split; [now rewrite Hst2|]. split.
  - exists resp. rewrite Hst2; cbn. now rewrite H4.
  - intros events s. split.
    + apply rounds_balanced. reflexivity.
    + unfold running. destruct (in_flight s); lia.
Qed.


Lemma single_flight_refresh_witness :
  (1 <= List.length three_callers)%nat
  /\ (forall r, In r three_callers -> needs_refresh (cache expired_system) r)
  /\ rounds_started (run expired_system (map Request three_callers)) = 2
  /\ exists resp,
       responses (step (run expired_system (map Request three_callers))
                       (RefreshCompletes 305%Z scenario))
       = [(1, resp); (2, resp); (3, resp)].
Proof.
  assert (Hlen : (1 <= List.length three_callers)%nat) by (cbn; lia).
  assert (Hall : forall r, In r three_callers ->
                           needs_refresh (cache expired_system) r).
  { intros r Hr. cbn in Hr.
    destruct Hr as [<- | [<- | [<- | []]]]; [right | left | right]; reflexivity. }
  split; [exact Hlen|]. split; [exact Hall|].
  destruct (single_flight_refresh expired_system three_callers 305%Z scenario
              Hlen Hall) as [H1 [_ [_ [_ [[resp [Hresp _]] _]]]]].
  split; [exact H1|].
  exists resp. exact Hresp.
Defined.

End SingleFlightProperties.

(** * Further properties of MetricCard.jsx *)

Section MetricCardViewProperties.

Import MetricCardView.
Local Open Scope string_scope.

Lemma float_not_nan (x : float) :
  PrimFloat.is_nan x = false -> Prim2SF x <> S754_nan.
Proof.
  unfold PrimFloat.is_nan. rewrite eqb_spec. intros H E. rewrite E in H.
  discriminate.
Qed.

(** A float that is a number is above 0, below 0 or equal to 0, and only
    one of the three. *)
Lemma float_sign_cases (x : float) :
  PrimFloat.is_nan x = false ->
  (PrimFloat.ltb 0 x = true /\ PrimFloat.ltb x 0 = false
   /\ PrimFloat.eqb x 0 = false)
  \/ (PrimFloat.ltb 0 x = false /\ PrimFloat.ltb x 0 = true
      /\ PrimFloat.eqb x 0 = false)
  \/ (PrimFloat.ltb 0 x = false /\ PrimFloat.ltb x 0 = false
      /\ PrimFloat.eqb x 0 = true).
Proof.
  intro H. apply float_not_nan in H.
  rewrite !ltb_spec, eqb_spec.
  change (Prim2SF 0) with (S754_zero false).
  destruct (Prim2SF x) as [s | s | | s m e]; try contradiction;
    unfold SFltb, SFeqb; cbn; try destruct s; cbn; tauto.
Qed.

Lemma float_nan_compares_false (x : float) :
  PrimFloat.is_nan x = true ->
  PrimFloat.ltb 0 x = false /\ PrimFloat.ltb x 0 = false
  /\ PrimFloat.eqb x 0 = false.
Proof.
  unfold PrimFloat.is_nan. rewrite !ltb_spec, !eqb_spec.
  change (Prim2SF 0) with (S754_zero false).
  destruct (Prim2SF x) as [s | s | | s m e]; unfold SFltb, SFeqb; cbn;
    try destruct s; cbn; try discriminate; try tauto.
  rewrite Z.compare_refl, Pos.compare_cont_refl. cbn. discriminate.
  rewrite Z.compare_refl, Pos.compare_cont_refl. cbn. discriminate.
Qed.

(** X1: for a numeric change, [getChangeInfo] always returns, and sorts the
    number by its sign: "positive" exactly when it is above 0 (with the text
    "+" and one decimal), "negative" exactly when it is below 0, the arrow
    of "no change" exactly when it equals 0 (either zero), and the blank
    indicator exactly when it is NaN. *)
Theorem getChangeInfo_classifies_by_sign :
  forall (x : float) (rt : Runtime),
    exists info,
      getChangeInfo (JNum x) rt = Returns info
      /\ (className info = "positive" <-> PrimFloat.ltb 0 x = true)
      /\ (className info = "negative" <-> PrimFloat.ltb x 0 = true)
      /\ (indicator info = "→" <-> PrimFloat.eqb x 0 = true)
      /\ (indicator info = "" <-> PrimFloat.is_nan x = true)
      /\ (PrimFloat.ltb 0 x = true -> text info = "+" ++ toFixed rt x 1 ++ "%")
      /\ (PrimFloat.ltb x 0 = true -> text info = toFixed rt x 1 ++ "%").
Proof.
  intros x rt. unfold getChangeInfo, isNaN, js_gt, js_lt; cbn.
  destruct (PrimFloat.is_nan x) eqn:N.
  - destruct (float_nan_compares_false x N) as [G [L E]]. rewrite G, L, E.
    eexists. split; [reflexivity|]. cbn.
    repeat split; intros; try discriminate; reflexivity.
  - destruct (float_sign_cases x N) as [[G [L E]] | [[G [L E]] | [G [L E]]]];
      rewrite G, L, E; try rewrite G; try rewrite L;
      (eexists; split; [reflexivity|]); cbn;
      repeat split; intros; try discriminate; reflexivity.
Qed.

End MetricCardViewProperties.

Section MetricsGridProperties.

Import MetricCardView.
Local Open Scope string_scope.
Local Arguments MetricCard.formatValue : simpl never.

Lemma getChangeInfo_number_returns (x : float) (rt : Runtime) :
  exists info, getChangeInfo (JNum x) rt = Returns info.
Proof.
  unfold getChangeInfo, isNaN, js_gt, js_lt; cbn.
  destruct (PrimFloat.is_nan x); [eexists; reflexivity|].
  destruct (PrimFloat.ltb 0 x); [eexists; reflexivity|].
  destruct (PrimFloat.ltb x 0); eexists; reflexivity.
Qed.

Lemma MetricCard_props_of (metric : DashboardPage.Metric) (rt : Runtime) :
  MetricCard (props_of metric) rt = card_of metric rt.
Proof.
  unfold MetricCard.
  change (defaulted (change (props_of metric)) JNull)
    with (JNum (DashboardPage.change metric)).
  destruct (getChangeInfo_number_returns (DashboardPage.change metric) rt)
    as [info ->].
  unfold card_of, props_of; cbn.
  destruct (DashboardPage.subtitle metric); reflexivity.
Qed.

Lemma mapM_ext {A B : Type} (f g : A -> result B) (l : list A) :
  (forall a, f a = g a) -> mapM f l = mapM g l.
Proof.
  intro H. induction l as [|a l IH]; [reflexivity|].
  cbn. now rewrite H, IH.
Qed.

Lemma mapM_map {A B C : Type} (h : A -> B) (g : B -> result C) (l : list A) :
  mapM (fun a => g (h a)) l = mapM g (map h l).
Proof.
  induction l as [|a l IH]; [reflexivity|]. cbn. now rewrite IH.
Qed.

Lemma getRoleMetrics_without_change (data : option KpiData.t) (role : jsval)
      (r1 r2 : float) :
  map without_change (getRoleMetrics data role r1)
  = map without_change (getRoleMetrics data role r2).
Proof.
  unfold getRoleMetrics.
  destruct data as [d|]; [|reflexivity].
  destruct (KpiData.key_metrics d); [|reflexivity].
  destruct (strict_eq_str role "finance"); [reflexivity|].
  destruct (strict_eq_str role "marketing"); reflexivity.
Qed.

Lemma metrics_grid_cards (data : option KpiData.t) (role : jsval)
      (random : float) (rt : Runtime) :
  metrics_grid data role random rt
  = mapM (fun m => card_of m rt)
         (map without_change (getRoleMetrics data role random)).
Proof.
  unfold metrics_grid.
  rewrite (mapM_ext _ (fun m => card_of (without_change m) rt)).
  - apply (mapM_map without_change (fun m => card_of m rt)).
  - intro m. rewrite MetricCard_props_of. reflexivity.
Qed.

(** X2: the grid of metric cards does not depend on the [Math.random()]
    draw behind each card's [change]: [MetricCard] computes the change
    indicator of a number without failing and renders none of it. *)
Theorem metrics_grid_ignores_the_random_change :
  forall (data : option KpiData.t) (role : jsval) (r1 r2 : float) (rt : Runtime),
    metrics_grid data role r1 rt = metrics_grid data role r2 rt.
Proof.
  intros. rewrite !metrics_grid_cards.
  now rewrite (getRoleMetrics_without_change data role r1 r2).
Qed.

Lemma formatValue_documented (v : Documented) (ty : jsval) (rt : Runtime) :
  exists r, MetricCard.formatValue (doc_val v) ty rt = Returns r.
Proof.
  destruct v as [ | | s | x]; cbn [doc_val].
  - eexists; reflexivity.
  - eexists; reflexivity.
  - rewrite formatValue_string.
    destruct (PrimFloat.is_nan (parseFloat rt s)); eexists; reflexivity.
  - rewrite formatValue_number.
    destruct (PrimFloat.is_nan x); eexists; reflexivity.
Qed.

Lemma documented_metric_values (m : DocumentedMetrics) (d : KpiData.t)
      (role : jsval) (random : float) (metric : DashboardPage.Metric) :
  KpiData.key_metrics d = Some (key_metrics_of m) ->
  In metric (getRoleMetrics (Some d) role random) ->
  exists v, DashboardPage.value metric = doc_val v.
Proof.
  intros Hk Hin. unfold getRoleMetrics in Hin. rewrite Hk in Hin.
  destruct (strict_eq_str role "finance");
    [|destruct (strict_eq_str role "marketing")];
    cbn in Hin; decompose [or] Hin; subst; try contradiction;
    cbn; eexists; reflexivity.
Qed.

(** X3: when every field of [key_metrics] is null, undefined, a string or
    a number, the grid renders, with four cards for finance and six for any
    other role; with a boolean ROAS and all else as before, the finance grid
    throws the TypeError of [toFixed] instead of rendering any card. *)
Theorem metrics_grid_renders_documented_metrics :
  forall (m : DocumentedMetrics) (g me a : option Source.t) (updated : jsval)
         (role : jsval) (random : float) (rt : Runtime),
    (exists cards,
        metrics_grid (Some (response_with (key_metrics_of m) g me a updated))
                     role random rt = Returns cards
        /\ List.length cards = (if strict_eq_str role "finance" then 4 else 6)%nat)
    /\ (forall b : bool,
          metrics_grid (Some (response_with (with_boolean_roas m b) g me a updated))
                       (JStr "finance") random rt
          = Throws (TypeError "toFixed is not a function")).
Proof.
  intros m g me a updated role random rt. split.
  - set (d := response_with (key_metrics_of m) g me a updated).
    destruct (mapM_total (fun metric => MetricCard (props_of metric) rt)
                (getRoleMetrics (Some d) role random)) as [cards [H L]].
    + intros metric Hin. rewrite MetricCard_props_of. unfold card_of.
      destruct (documented_metric_values m d role random metric eq_refl Hin)
        as [v ->].
      destruct (formatValue_documented v (JStr (DashboardPage.type metric)) rt)
        as [r ->].
      eexists; reflexivity.
    + exists cards. split; [exact H|]. rewrite L.
      unfold getRoleMetrics, d; cbn.
      destruct (strict_eq_str role "finance"); [reflexivity|].
      destruct (strict_eq_str role "marketing"); reflexivity.
  - intro b. rewrite metrics_grid_cards. cbn.
    unfold card_of, without_change; cbn.
    destruct (formatValue_documented (d_total_ad_spend m) (JStr "currency") rt)
      as [r1 ->]. cbn.
    destruct (formatValue_documented (d_total_revenue m) (JStr "currency") rt)
      as [r2 ->]. cbn.
    destruct b; reflexivity.
Qed.

End MetricsGridProperties.

(** * Further properties of DashboardPage.jsx *)

Section RoleProperties.

Import DashboardView.
Local Open Scope string_scope.

Lemma strict_eq_str_other (role : jsval) (lit : string) :
  role <> JStr lit -> strict_eq_str role lit = false.
Proof.
  intro H. destruct role as [ | | b | x | s]; try reflexivity.
  cbn. apply String.eqb_neq. intro E. apply H. now subst.
Qed.

(** X4: a role other than admin, marketing and finance gets the same
    cards as admin, yet only the Daily Conversions chart and no campaign
    table, where admin gets the spend, clicks and conversions charts. *)
Theorem unlisted_role_gets_admin_cards_only :
  forall (kpiData : option KpiData.t) (role : jsval) (random : float)
         (rt : Runtime),
    role <> JStr "admin" -> role <> JStr "marketing" -> role <> JStr "finance" ->
    getRoleMetrics kpiData role random = getRoleMetrics kpiData (JStr "admin") random
    /\ map chart_title (charts kpiData role rt) = ["Daily Conversions"]
    /\ campaign_section kpiData role rt = Returns None
    /\ map chart_title (charts kpiData (JStr "admin") rt)
       = ["Daily Ad Spend"; "Daily Clicks"; "Daily Conversions"].
Proof.
  intros kpiData role random rt Ha Hm Hf.
  apply strict_eq_str_other in Ha, Hm, Hf.
  split; [|split; [|split]].
  - unfold getRoleMetrics. rewrite Hm, Hf. reflexivity.
  - unfold charts. rewrite Ha, Hm, Hf. reflexivity.
  - unfold campaign_section. now rewrite Ha.
  - reflexivity.
Qed.

Lemma unlisted_role_gets_admin_cards_only_witness :
  (JStr "viewer" <> JStr "admin" /\ JStr "viewer" <> JStr "marketing"
   /\ JStr "viewer" <> JStr "finance")
  /\ map value (getRoleMetrics (Some sample_data) (JStr "viewer") 0.5)
     = [ JNum 100; JNum 250; JNum 8945; JNum 312; JNum 1000; JNum 2.5 ]
  /\ map chart_title (charts (Some sample_data) (JStr "viewer") sample_runtime)
     = ["Daily Conversions"].
Proof.
  assert (Ha : JStr "viewer" <> JStr "admin") by discriminate.
  assert (Hm : JStr "viewer" <> JStr "marketing") by discriminate.
  assert (Hf : JStr "viewer" <> JStr "finance") by discriminate.
  split; [auto|].
  destruct (unlisted_role_gets_admin_cards_only (Some sample_data)
              (JStr "viewer") 0.5 sample_runtime Ha Hm Hf) as [H1 [H2 _]].
  split; [rewrite H1; reflexivity | exact H2].
Defined.

Lemma mem_In (s : string) (l : list string) : mem s l = true <-> In s l.
Proof.
  unfold mem. rewrite existsb_exists. split.
  - intros [x [Hin Heq]]. apply String.eqb_eq in Heq. now subst.
  - intro H. exists s. split; [exact H | apply String.eqb_refl].
Qed.

(** X5: [getRoleGreeting] gives each of the three roles its own title and
    every other role 'KPI Dashboard', except a role spelled like one of the
    twelve properties every object inherits (constructor, toString, ...),
    for which [greetings[role]] is that inherited member and not a title. *)
Theorem getRoleGreeting_is_a_title_unless_inherited :
  forall role : jsval,
    (getRoleGreeting role = Title "Administrator Dashboard" <-> role = JStr "admin")
    /\ (getRoleGreeting role = Title "Marketing Performance Dashboard"
        <-> role = JStr "marketing")
    /\ (getRoleGreeting role = Title "Financial Metrics Dashboard"
        <-> role = JStr "finance")
    /\ (forall key, getRoleGreeting role = PrototypeMember key
                    <-> role = JStr key /\ In key object_prototype_keys)
    /\ (getRoleGreeting role = Title "KPI Dashboard"
        <-> (forall s, role = JStr s ->
               s <> "admin" /\ s <> "marketing" /\ s <> "finance"
               /\ (In s object_prototype_keys -> False))).
Proof.
  intro role. destruct role as [ | | b | x | s];
    try (cbn; repeat split; intros; try discriminate;
         match goal with H : _ /\ _ |- _ => destruct H; discriminate end).
  unfold getRoleGreeting.
  destruct (String.eqb_spec s "admin") as [-> | Ha];
    [cbn; repeat split; intros; try discriminate; try reflexivity;
     try (match goal with H : _ /\ _ |- _ => destruct H as [[= <-] H]; cbn in H;
            decompose [or] H; try discriminate; contradiction end);
     try (match goal with H : forall s, _ |- _ =>
            destruct (H _ eq_refl) as [H1 _]; now elim H1 end) |].
  destruct (String.eqb_spec s "marketing") as [-> | Hm];
    [cbn; repeat split; intros; try discriminate; try reflexivity;
     try (match goal with H : _ /\ _ |- _ => destruct H as [[= <-] H]; cbn in H;
            decompose [or] H; try discriminate; contradiction end);
     try (match goal with H : forall s, _ |- _ =>
            destruct (H _ eq_refl) as [_ [H1 _]]; now elim H1 end) |].
  destruct (String.eqb_spec s "finance") as [-> | Hf];
    [cbn; repeat split; intros; try discriminate; try reflexivity;
     try (match goal with H : _ /\ _ |- _ => destruct H as [[= <-] H]; cbn in H;
            decompose [or] H; try discriminate; contradiction end);
     try (match goal with H : forall s, _ |- _ =>
            destruct (H _ eq_refl) as [_ [_ [H1 _]]]; now elim H1 end) |].
  destruct (mem s object_prototype_keys) eqn:M.
  - apply mem_In in M.
    split; [split; [discriminate | intros [= ->]; now elim Ha]|].
    split; [split; [discriminate | intros [= ->]; now elim Hm]|].
    split; [split; [discriminate | intros [= ->]; now elim Hf]|].
    split.
    + intro key. split; [intros [= <-]; auto | intros [[= <-] _]; reflexivity].
    + split; [discriminate|].
      intro H. destruct (H s eq_refl) as [_ [_ [_ H1]]]. now elim H1.
  - assert (Hnot : In s object_prototype_keys -> False).
    { intro H. apply mem_In in H. congruence. }
    split; [split; [discriminate | intros [= ->]; now elim Ha]|].
    split; [split; [discriminate | intros [= ->]; now elim Hm]|].
    split; [split; [discriminate | intros [= ->]; now elim Hf]|].
    split.
    + intro key. split; [discriminate | intros [[= <-] H]; now elim Hnot].
    + split; [|reflexivity]. intros _ s' [= <-]. auto.
Qed.

End RoleProperties.

Section TableProperties.

Import DashboardView.
Local Open Scope string_scope.

Lemma truthy_or_else_zero (a : jsval) :
  truthy a = false -> truthy (or_else a (JNum 0)) = false.
Proof. intro H. unfold or_else. rewrite H. reflexivity. Qed.

Lemma cost_normalised_once (a b : jsval) :
  or_else (or_else (or_else (or_else a b) (JNum 0)) b) (JNum 0)
  = or_else (or_else a b) (JNum 0).
Proof.
  destruct (truthy (or_else a b)) eqn:T.
  - assert (E : or_else (or_else a b) (JNum 0) = or_else a b)
      by (unfold or_else at 1; now rewrite T).
    rewrite E. unfold or_else at 2. rewrite T. exact E.
  - assert (E : or_else (or_else a b) (JNum 0) = JNum 0)
      by (unfold or_else at 1; now rewrite T).
    rewrite E.
    assert (Hb : truthy b = false).
    { unfold or_else in T. destruct (truthy a) eqn:Ta; congruence. }
    unfold or_else. cbn. now rewrite Hb.
Qed.

(** X6: tagging a campaign with its platform changes the platform cell of
    its row and nothing else: the cost computed by the tagging
    ([cost || spend || 0]) is the number the untagged row would show, and a
    row that throws still throws the same error. *)
Theorem platform_tag_changes_the_platform_cell_only :
  forall (p : string) (campaign : Campaign.t) (rt : Runtime),
    render_row (with_platform p campaign) rt
    = match render_row campaign rt with
      | Returns row =>
          Returns
            {| name_cell := name_cell row;
               platform_cell :=
                 {| backgroundColor :=
                      if String.eqb p "Google Ads" then "#4285f4" else "#1877f2";
                    text := if String.eqb p "" then JStr "Unknown" else JStr p |};
               spend_cell := spend_cell row;
               clicks_cell := clicks_cell row;
               ctr_cell := ctr_cell row;
               conversions_cell := conversions_cell row;
               status_cell := status_cell row |}
      | Throws e => Throws e
      end.
Proof.
  intros p campaign rt. unfold render_row.
  cbn [with_platform Campaign.cost Campaign.spend Campaign.clicks Campaign.ctr
       Campaign.conversions Campaign.name].
  rewrite cost_normalised_once.
  destruct (call_toLocaleString
              (or_else (or_else (Campaign.cost campaign) (Campaign.spend campaign))
                       (JNum 0)) rt); [|reflexivity].
  cbn [bind].
  destruct (call_toLocaleString (or_else (Campaign.clicks campaign) (JNum 0)) rt);
    [|reflexivity].
  cbn [bind].
  destruct (call_toFixed (or_else (Campaign.ctr campaign) (JNum 0)) 2 rt);
    [|reflexivity].
  cbn [bind].
  destruct (call_toLocaleString
              (or_else (Campaign.conversions campaign) (JNum 0)) rt);
    [|reflexivity].
  cbn. unfold platform_badge, status_badge, or_else; cbn.
  destruct (String.eqb p ""); reflexivity.
Qed.

Lemma campaigns_of_length (kpiData : option KpiData.t) :
  List.length (apiCampaigns kpiData)
  = (List.length (campaigns_of (source_of KpiData.google_ads kpiData))
     + List.length (campaigns_of (source_of KpiData.meta_ads kpiData)))%nat.
Proof.
  unfold apiCampaigns, googleAdsCampaigns, metaAdsCampaigns.
  now rewrite length_app, !length_map.
Qed.

(** X7: when the footer renders, Meta Ads is 'Connected' exactly when it
    has a campaign, the two campaign counts add up to the provider
    campaigns of the table, the demo campaigns are shown exactly when both
    counts are 0, and a 'Connected' Meta Ads means the table shows provider
    campaigns. *)
Theorem footer_counts_match_the_table :
  forall (kpiData : option KpiData.t) (f : Footer),
    footer kpiData = Returns f ->
    (meta_state f = "Connected" <-> (0 < meta_count f)%nat)
    /\ (meta_state f = "Connected" \/ meta_state f = "Demo")
    /\ (google_count f + meta_count f)%nat = List.length (apiCampaigns kpiData)
    /\ (isUsingMockData kpiData = true
        <-> google_count f = 0%nat /\ meta_count f = 0%nat)
    /\ (meta_state f = "Connected" ->
        isUsingMockData kpiData = false
        /\ campaignsToShow kpiData = apiCampaigns kpiData).
Proof.
  intros kpiData f H. unfold footer in H.
  destruct (google_connected kpiData) as [g|e]; [cbn in H | discriminate].
  injection H as <-. cbn [meta_state meta_count google_count].
  assert (Hmeta : meta_connected kpiData
                  = (0 <? List.length (campaigns_of (source_of KpiData.meta_ads
                                                               kpiData)))%nat).
  { unfold meta_connected, campaigns_of.
    destruct (source_of KpiData.meta_ads kpiData) as [m|]; [|reflexivity].
    destruct (Source.campaigns m); reflexivity. }
  rewrite Hmeta.
  pose proof (campaigns_of_length kpiData) as Hlen.
  set (ng := List.length (campaigns_of (source_of KpiData.google_ads kpiData))) in *.
  set (nm := List.length (campaigns_of (source_of KpiData.meta_ads kpiData))) in *.
  assert (Hmock : isUsingMockData kpiData = true <-> ng = 0%nat /\ nm = 0%nat).
  { unfold isUsingMockData. rewrite Hlen, Nat.eqb_eq. lia. }
  split; [|split; [|split; [|split]]].
  - destruct (Nat.ltb_spec 0 nm); split; intro; try reflexivity;
      try discriminate; try lia; assumption.
  - destruct (0 <? nm)%nat; auto.
  - now rewrite Hlen.
  - exact Hmock.
  - intro Hc. destruct (Nat.ltb_spec 0 nm) as [Hpos|]; [|discriminate].
    destruct (campaignsToShow_cases kpiData) as [[Ha [_ Hb]] | [Ha [Hs Hb]]].
    + apply Hmock in Hb. lia.
    + split; assumption.
Qed.

Lemma footer_counts_match_the_table_witness :
  footer (Some meta_only_response)
  = Returns {| google_state := "Connected"; google_count := 0;
               meta_state := "Connected"; meta_count := 1 |}
  /\ isUsingMockData (Some meta_only_response) = false.
Proof.
  split; [reflexivity|].
  exact (proj1 (proj2 (proj2 (proj2 (proj2
           (footer_counts_match_the_table (Some meta_only_response) _ eq_refl))))
           eq_refl)).
Defined.

End TableProperties.

Section PageStateProperties.

Import DashboardView.
Local Open Scope string_scope.

Lemma step_keeps_page_invariant (st : PageState) (e : Event) :
  page_invariant st -> enabled st e = true -> page_invariant (step st e).
Proof.
  unfold page_invariant, enabled, view.
  intros [[Hp [Hl Hr]] | [[Hp [Hl Hr]] | [Hp [Hl [Hr He]]]]] Hen;
    destruct e as [[|] | d | m]; cbn;
    rewrite ?Hp, ?Hl, ?Hr, ?He in *; cbn in *;
    try discriminate; try (destruct (negb (error st =? "")); discriminate);
    auto 10.
Qed.

Lemma interact_keeps_page_invariant (events : list Event) :
  forall st st' : PageState,
    page_invariant st -> interact st events = Some st' -> page_invariant st'.
Proof.
  induction events as [|e events IH]; intros st st' Hinv H; cbn in H.
  - now injection H as <-.
  - destruct (enabled st e) eqn:En; [|discriminate].
    eapply IH; [|exact H]. now apply step_keeps_page_invariant.
Qed.

(** X8: starting from the first [loadKPIData()] of the mounted page and
    using only the controls the page offers (Refresh when enabled, Try
    Again on the error panel) and the settling of requests, at most one KPI
    request is in the air; one is in the air exactly when [loading] or
    [refreshing] is set, never both; and a control that starts a load is
    offered only when none is. *)
Theorem page_has_one_request_in_the_air_at_most :
  forall (events : list Event) (st : PageState),
    interact first_load events = Some st ->
    (pending st <= 1)%nat
    /\ (pending st = 1%nat <-> loading st || refreshing st = true)
    /\ loading st && refreshing st = false
    /\ (view st = Spinner <-> loading st = true)
    /\ (forall d, view st = Main d true -> pending st = 1%nat)
    /\ (forall force, enabled st (CallLoad force) = true -> pending st = 0%nat).
Proof.
  intros events st H.
  assert (Hinv : page_invariant st).
  { eapply interact_keeps_page_invariant; [|exact H].
    right. left. repeat split. }
  assert (Hview : view st = Spinner <-> loading st = true).
  { unfold view. destruct (loading st); [tauto|].
    destruct (negb (error st =? "")); split; discriminate. }
  split; [|split; [|split; [|split; [exact Hview|split]]]].
  - destruct Hinv as [[Hp _] | [[Hp _] | [Hp _]]]; lia.
  - destruct Hinv as [[Hp [Hl Hr]] | [[Hp [Hl Hr]] | [Hp [Hl [Hr _]]]]];
      rewrite Hp, Hl, Hr; cbn; split; try discriminate; auto.
  - destruct Hinv as [[Hp [Hl Hr]] | [[Hp [Hl Hr]] | [Hp [Hl [Hr _]]]]];
      rewrite Hl, Hr; reflexivity.
  - intros d Hv. unfold view in Hv.
    destruct Hinv as [[Hp [Hl Hr]] | [[Hp [Hl Hr]] | [Hp [Hl [Hr _]]]]];
      rewrite Hl, ?Hr in Hv; try discriminate; try assumption.
    destruct (negb (error st =? "")); discriminate.
  - intros force Hen. unfold enabled, view in Hen.
    destruct Hinv as [[Hp [Hl Hr]] | [[Hp [Hl Hr]] | [Hp [Hl [Hr He]]]]];
      try assumption; rewrite Hl, ?Hr, ?He in Hen; destruct force;
      cbn in Hen; try discriminate.
Qed.

Lemma page_has_one_request_in_the_air_at_most_witness :
  interact first_load
    [Reject "Network Error"; CallLoad false; Resolve (Some sample_data);
     CallLoad true]
  = Some {| kpiData := Some sample_data; loading := false; error := "";
            refreshing := true; pending := 1 |}
  /\ (pending {| kpiData := Some sample_data; loading := false; error := "";
                 refreshing := true; pending := 1 |} <= 1)%nat.
Proof.
  split; [reflexivity|].
  exact (proj1 (page_has_one_request_in_the_air_at_most
                  [Reject "Network Error"; CallLoad false;
                   Resolve (Some sample_data); CallLoad true] _ eq_refl)).
Defined.

(** X9: a load that fails with a non-empty message leaves [kpiData] as it
    was but shows the error panel with that message instead of the data;
    from there only Try Again can start a load, which shows the spinner,
    and its success shows the main view with the new data. *)
Theorem failed_refresh_hides_the_data_it_keeps :
  forall (st : PageState) (force : bool) (message : string),
    message <> "" ->
    let failed := step (step st (CallLoad force)) (Reject message) in
    view failed = ErrorPanel message
    /\ kpiData failed = kpiData st
    /\ enabled failed (CallLoad true) = false
    /\ enabled failed (CallLoad false) = true
    /\ view (step failed (CallLoad false)) = Spinner
    /\ (forall d, view (step (step failed (CallLoad false)) (Resolve d))
                  = Main d false).
Proof.
  intros st force message Hm failed. unfold failed, view, enabled, view; cbn.
  apply String.eqb_neq in Hm. rewrite Hm. cbn. repeat split.
Qed.

Lemma failed_refresh_hides_the_data_it_keeps_witness :
  "Request failed with status code 500" <> ""
  /\ view (step (step (loaded_page (Some sample_data)) (CallLoad true))
                (Reject "Request failed with status code 500"))
     = ErrorPanel "Request failed with status code 500"
  /\ kpiData (step (step (loaded_page (Some sample_data)) (CallLoad true))
                   (Reject "Request failed with status code 500"))
     = Some sample_data.
Proof.
  assert (H : "Request failed with status code 500" <> "") by discriminate.
  split; [exact H|].
  destruct (failed_refresh_hides_the_data_it_keeps
              (loaded_page (Some sample_data)) true _ H) as [H1 [H2 _]].
  split; assumption.
Defined.

End PageStateProperties.

(** * Properties of services/api.js and App.jsx *)

Section ApiProperties.

Import Api.
Local Open Scope string_scope.

Lemma truthy_or_else_r (a b : jsval) :
  truthy b = true -> truthy (or_else a b) = true.
Proof. intro H. unfold or_else. destruct (truthy a) eqn:T; assumption. Qed.

Lemma or_else_truthy (a b : jsval) : truthy a = true -> or_else a b = a.
Proof. intro H. unfold or_else. now rewrite H. Qed.

Lemma or_else_falsy (a b : jsval) : truthy a = false -> or_else a b = b.
Proof. intro H. unfold or_else. now rewrite H. Qed.

(** X10: every message the API layer throws or returns for a failed call
    is truthy: the server's [error] when it is truthy, else a fixed text
    (or, for [getKPIData], the axios message unless empty); a timed-out
    [getKPIData] always reports the timeout text, whatever the server
    said. *)
Theorem api_error_messages_are_never_empty :
  forall error : AxiosError,
    truthy (login_error error) = true
    /\ truthy (getProfile_error error) = true
    /\ truthy (getKPIData_error error) = true
    /\ truthy (clearCache_error error) = true
    /\ truthy (getCacheStats_error error) = true
    /\ truthy (handleAPIError error) = true
    /\ (timed_out error = true ->
        exists text, getKPIData_error error = JStr text
                     /\ String.prefix "Request timed out." text = true)
    /\ (timed_out error = false -> truthy (server_error error) = true ->
        getKPIData_error error = server_error error)
    /\ (timed_out error = false -> truthy (server_error error) = false ->
        getKPIData_error error
        = JStr (if String.eqb (message error) "" then "Failed to fetch KPI data"
                else message error))
    /\ (truthy (server_error error) = true ->
        login_error error = server_error error
        /\ getProfile_error error = server_error error
        /\ clearCache_error error = server_error error
        /\ getCacheStats_error error = server_error error).
Proof.
  intro error.
  split; [now apply truthy_or_else_r|].
  split; [now apply truthy_or_else_r|].
  split.
  { unfold getKPIData_error.
    destruct (strict_eq_str (code error) "ECONNABORTED"
              && JsString.includes "timeout" (message error));
      [reflexivity | now apply truthy_or_else_r]. }
  split; [now apply truthy_or_else_r|].
  split; [now apply truthy_or_else_r|].
  split.
  { unfold handleAPIError. destruct (response error) as [r|].
    - now apply truthy_or_else_r.
    - destruct (request error); [reflexivity | now apply truthy_or_else_r]. }
  split.
  { intro T. unfold timed_out in T. unfold getKPIData_error. rewrite T.
    eexists. split; reflexivity. }
  split.
  { intros T S. unfold timed_out in T. unfold getKPIData_error. rewrite T.
    rewrite (or_else_truthy (server_error error) _ S).
    now apply or_else_truthy. }
  split.
  { intros T S. unfold timed_out in T. unfold getKPIData_error. rewrite T.
    rewrite (or_else_falsy (server_error error) _ S).
    unfold or_else; cbn. destruct (String.eqb (message error) ""); reflexivity. }
  intro S. unfold login_error, getProfile_error, clearCache_error,
             getCacheStats_error.
  repeat split; now apply or_else_truthy.
Qed.






End ApiProperties.

Section FailureProperties.

Import Api.
Local Open Scope string_scope.

(** X18: when [kpiAPI.getKPIData] fails and the server's [error] is falsy or
    a string, the text it throws is a non-empty string, and the page that
    receives it as [err.message] shows the error panel with it, whatever it
    showed before: such a failure never leaves the page on the spinner or
    on a main view. *)
Theorem failed_kpi_request_always_shows_the_error_panel :
  forall (error : AxiosError) (st : DashboardView.PageState) (force : bool),
    truthy (server_error error) = false
    \/ (exists s, server_error error = JStr s) ->
    exists text,
      getKPIData_error error = JStr text
      /\ text <> ""
      /\ DashboardView.view
           (DashboardView.step
              (DashboardView.step st (DashboardView.CallLoad force))
              (DashboardView.Reject text))
         = DashboardView.ErrorPanel text.
Proof.
  intros error st force Hserver.
  assert (Hstr : exists text, getKPIData_error error = JStr text).
  { unfold getKPIData_error.
    destruct (strict_eq_str (code error) "ECONNABORTED"
              && JsString.includes "timeout" (message error));
      [eexists; reflexivity|].
    destruct (truthy (server_error error)) eqn:T.
    - destruct Hserver as [F | [s Hs]]; [discriminate|].
      rewrite (or_else_truthy (server_error error) _ T), Hs.
      rewrite Hs in T. rewrite (or_else_truthy _ _ T). eauto.
    - rewrite (or_else_falsy (server_error error) _ T).
      unfold or_else; cbn.
      destruct (String.eqb (message error) ""); cbn; eauto. }
  destruct Hstr as [text H]. exists text.
  assert (Ht : truthy (getKPIData_error error) = true).
  { unfold getKPIData_error.
    destruct (strict_eq_str (code error) "ECONNABORTED"
              && JsString.includes "timeout" (message error));
      [reflexivity | now apply truthy_or_else_r]. }
  rewrite H in Ht. cbn in Ht. apply negb_true_iff in Ht.
  split; [exact H|]. split; [now apply String.eqb_neq|].
  unfold DashboardView.view; cbn. now rewrite Ht.
Qed.

Lemma failed_kpi_request_always_shows_the_error_panel_witness :
  truthy (server_error server_down) = false
  /\ exists text,
       getKPIData_error server_down = JStr text
       /\ DashboardView.view
            (DashboardView.step
               (DashboardView.step (loaded_page (Some sample_data))
                                   (DashboardView.CallLoad true))
               (DashboardView.Reject text))
          = DashboardView.ErrorPanel text.
Proof.
  assert (H : truthy (server_error server_down) = false) by reflexivity.
  split; [exact H|].
  destruct (failed_kpi_request_always_shows_the_error_panel server_down
              (loaded_page (Some sample_data)) true (or_introl H))
    as [text [H1 [_ H2]]].
  exists text. split; assumption.
Defined.

End FailureProperties.

(** * Properties of LoginPage.jsx *)

Section RegexProperties.

Import Regex.
Variable A : Type.

Lemma lang_nil_nullable (r : re A) (s : list A) :
  lang r s -> s = [] -> nullable r = true.
Proof.
  induction 1 as [ | p a Hp | r1 r2 s1 s2 H1 IH1 H2 IH2 | r1 r2 s H IH
                 | r1 r2 s H IH | r | r s1 s2 H1 IH1 H2 IH2 ]; intro E; cbn.
  - reflexivity.
  - discriminate.
  - apply app_eq_nil in E. destruct E as [E1 E2].
    now rewrite (IH1 E1), (IH2 E2).
  - now rewrite (IH E).
  - rewrite (IH E). apply orb_true_r.
  - reflexivity.
  - reflexivity.
Qed.

Lemma nullable_lang (r : re A) : nullable r = true -> lang r [].
Proof.
  induction r as [ | | p | r1 IH1 r2 IH2 | r1 IH1 r2 IH2 | r IH ]; cbn; intro H.
  - discriminate.
  - constructor.
  - discriminate.
  - apply andb_true_iff in H. destruct H as [H1 H2].
    change (@nil A) with (@nil A ++ @nil A). constructor; auto.
  - apply orb_true_iff in H. destruct H as [H | H];
      [apply lang_alt_l | apply lang_alt_r]; auto.
  - constructor.
Qed.

(** A non-empty word of [r*] starts with a non-empty word of [r]. *)
Lemma lang_star_cons (r : re A) (w : list A) :
  lang (Star r) w ->
  forall a s, w = a :: s ->
  exists s1 s2, s = s1 ++ s2 /\ lang r (a :: s1) /\ lang (Star r) s2.
Proof.
  intro H. remember (Star r) as sr eqn:Esr.
  induction H as [ | p a Hp | r1 r2 s1 s2 H1 IH1 H2 IH2 | r1 r2 s H IH
                 | r1 r2 s H IH | r0 | r0 s1 s2 H1 IH1 H2 IH2 ];
    try discriminate; intros a s E.
  injection Esr as ->.
  destruct s1 as [|b s1'].
  - cbn in E. now apply IH2.
  - cbn in E. injection E as -> <-. exists s1', s2. auto.
Qed.

Lemma lang_cat (r1 r2 : re A) (s : list A) :
  lang (Cat r1 r2) s <-> exists s1 s2, s = s1 ++ s2 /\ lang r1 s1 /\ lang r2 s2.
Proof.
  split.
  - intro H. inversion H; subst. eauto.
  - intros [s1 [s2 [-> [H1 H2]]]]. now constructor.
Qed.

Lemma lang_alt (r1 r2 : re A) (s : list A) :
  lang (Alt r1 r2) s <-> lang r1 s \/ lang r2 s.
Proof.
  split.
  - intro H. inversion H; subst; auto.
  - intros [H | H]; [apply lang_alt_l | apply lang_alt_r]; exact H.
Qed.

Lemma lang_chr_iff (p : A -> bool) (s : list A) :
  lang (Chr p) s <-> exists a, s = [a] /\ p a = true.
Proof.
  split.
  - intro H. inversion H; subst. eauto.
  - intros [a [-> Hp]]. now constructor.
Qed.

Lemma lang_cons_cat (a : A) (s1 s2 : list A) (r1 r2 : re A) :
  lang r1 (a :: s1) -> lang r2 s2 -> lang (Cat r1 r2) (a :: s1 ++ s2).
Proof.
  intros H1 H2. change (a :: s1 ++ s2) with ((a :: s1) ++ s2). now constructor.
Qed.

Lemma deriv_sound (a : A) (r : re A) :
  forall s, lang (deriv a r) s -> lang r (a :: s).
Proof.
  induction r as [ | | p | r1 IH1 r2 IH2 | r1 IH1 r2 IH2 | r IH ]; cbn; intros s H.
  - inversion H.
  - inversion H.
  - destruct (p a) eqn:Hp; inversion H; subst. now constructor.
  - assert (Hcat : lang (Cat (deriv a r1) r2) s -> lang (Cat r1 r2) (a :: s)).
    { intro Hc. apply lang_cat in Hc. destruct Hc as [s1 [s2 [-> [Ha Hb]]]].
      apply lang_cons_cat; auto. }
    destruct (nullable r1) eqn:N; [|now apply Hcat].
    apply lang_alt in H. destruct H as [H | H]; [now apply Hcat|].
    change (a :: s) with ([] ++ a :: s).
    constructor; [now apply nullable_lang | auto].
  - apply lang_alt in H. apply lang_alt. destruct H; auto.
  - apply lang_cat in H. destruct H as [s1 [s2 [-> [Ha Hb]]]].
    change (a :: s1 ++ s2) with ((a :: s1) ++ s2). constructor; auto.
Qed.

Lemma deriv_complete (a : A) (r : re A) :
  forall s, lang r (a :: s) -> lang (deriv a r) s.
Proof.
  induction r as [ | | p | r1 IH1 r2 IH2 | r1 IH1 r2 IH2 | r IH ]; cbn; intros s H.
  - inversion H.
  - inversion H.
  - apply lang_chr_iff in H. destruct H as [b [[= -> ->] Hp]].
    rewrite Hp. constructor.
  - apply lang_cat in H. destruct H as [s1 [s2 [E [Ha Hb]]]].
    destruct s1 as [|b s1'].
    + cbn in E. subst s2.
      rewrite (lang_nil_nullable _ _ Ha eq_refl).
      apply lang_alt_r. auto.
    + cbn in E. injection E as <- ->.
      destruct (nullable r1); [apply lang_alt_l|]; constructor; auto.
  - apply lang_alt in H. apply lang_alt. destruct H; auto.
  - destruct (lang_star_cons r _ H a s eq_refl) as [s1 [s2 [-> [Ha Hb]]]].
    constructor; auto.
Qed.

(** The matcher decides membership. *)
Lemma test_lang (s : list A) :
  forall r : re A, test r s = true <-> lang r s.
Proof.
  induction s as [|a s IH]; intro r; cbn.
  - split; [apply nullable_lang | intro H; now apply (lang_nil_nullable r [])].
  - rewrite IH. split; [apply deriv_sound | apply deriv_complete].
Qed.

Lemma lang_star_chr (p : A -> bool) (s : list A) :
  lang (Star (Chr p)) s <-> Forall (fun c => p c = true) s.
Proof.
  split.
  - intro H. remember (Star (Chr p)) as sr eqn:E.
    induction H as [ | q a Hq | r1 r2 s1 s2 H1 IH1 H2 IH2 | r1 r2 s H IH
                   | r1 r2 s H IH | r0 | r0 s1 s2 H1 IH1 H2 IH2 ];
      try discriminate.
    + constructor.
    + injection E as ->. inversion H1; subst. cbn. constructor; auto.
  - induction 1 as [|c s Hc _ IH]; [constructor|].
    change (c :: s) with ([c] ++ s). constructor; [now constructor | exact IH].
Qed.

Lemma lang_plus_chr (p : A -> bool) (s : list A) :
  lang (Plus (Chr p)) s <-> s <> [] /\ Forall (fun c => p c = true) s.
Proof.
  unfold Plus. split.
  - intro H. inversion H as [ | | r1 r2 s1 s2 Ha Hb | | | | ]; subst.
    inversion Ha; subst. cbn. split; [discriminate|].
    constructor; [assumption | now apply lang_star_chr].
  - intros [Hne HF]. destruct s as [|c s]; [contradiction|].
    inversion HF; subst.
    change (c :: s) with ([c] ++ s).
    constructor; [now constructor | now apply lang_star_chr].
Qed.

Lemma lang_cat_chr (p : A -> bool) (r : re A) (s : list A) :
  lang (Cat (Chr p) r) s <-> exists c s', s = c :: s' /\ p c = true /\ lang r s'.
Proof.
  split.
  - intro H. apply lang_cat in H. destruct H as [s1 [s2 [-> [Ha Hb]]]].
    apply lang_chr_iff in Ha. destruct Ha as [c [-> Hp]].
    exists c, s2. auto.
  - intros [c [s' [-> [Hp Hr]]]].
    change (c :: s') with ([c] ++ s'). constructor; [now constructor | exact Hr].
Qed.

End RegexProperties.

Section LoginProperties.

Import Login.
Local Open Scope N_scope.

Lemma isValidEmail_shape_aux :
  forall email : jsstring,
    isValidEmail email = true
    <-> exists local domain tail,
          email = (local ++ at_sign :: domain ++ full_stop :: tail)%list
          /\ local <> [] /\ domain <> [] /\ tail <> []
          /\ Forall (fun c => not_space_or_at c = true) local
          /\ Forall (fun c => not_space_or_at c = true) domain
          /\ Forall (fun c => not_space_or_at c = true) tail.
Proof.
  intro email. unfold isValidEmail, emailRegex.
  rewrite test_lang, lang_cat. split.
  - intros [l [rest [-> [Hl Hrest]]]].
    apply lang_plus_chr in Hl. destruct Hl as [Hl1 Hl2].
    apply lang_cat_chr in Hrest. destruct Hrest as [c [rest' [-> [Hc Hrest]]]].
    apply N.eqb_eq in Hc. subst c.
    apply lang_cat in Hrest. destruct Hrest as [d [rest'' [-> [Hd Hrest]]]].
    apply lang_plus_chr in Hd. destruct Hd as [Hd1 Hd2].
    apply lang_cat_chr in Hrest. destruct Hrest as [c [t [-> [Hc Ht]]]].
    apply N.eqb_eq in Hc. subst c.
    apply lang_plus_chr in Ht. destruct Ht as [Ht1 Ht2].
    exists l, d, t. auto 10.
  - intros [l [d [t [-> [Hl [Hd [Ht [Fl [Fd Ft]]]]]]]]].
    exists l, (at_sign :: d ++ full_stop :: t)%list.
    split; [reflexivity|]. split; [now apply lang_plus_chr|].
    apply lang_cat_chr. exists at_sign, (d ++ full_stop :: t)%list.
    split; [reflexivity|]. split; [reflexivity|].
    apply lang_cat. exists d, (full_stop :: t)%list.
    split; [reflexivity|]. split; [now apply lang_plus_chr|].
    apply lang_cat_chr. exists full_stop, t.
    split; [reflexivity|]. split; [reflexivity|]. now apply lang_plus_chr.
Qed.

(** X13: [isValidEmail] accepts exactly the strings of the form
    local@domain.tail whose three parts are non-empty and hold neither
    whitespace nor '@' (the domain part ending at any one of its full
    stops); an accepted string has at least five code units. *)
Theorem isValidEmail_iff_local_at_domain_dot_tail :
  forall email : jsstring,
    (isValidEmail email = true
     <-> exists local domain tail,
           email = (local ++ at_sign :: domain ++ full_stop :: tail)%list
           /\ local <> [] /\ domain <> [] /\ tail <> []
           /\ Forall (fun c => not_space_or_at c = true) local
           /\ Forall (fun c => not_space_or_at c = true) domain
           /\ Forall (fun c => not_space_or_at c = true) tail)
    /\ (isValidEmail email = true -> (5 <= List.length email)%nat).
Proof.
  intro email. split; [apply isValidEmail_shape_aux|].
  intro H. apply isValidEmail_shape_aux in H.
  destruct H as [l [d [t [-> [Hl [Hd [Ht _]]]]]]].
  destruct l; [contradiction|]. destruct d; [contradiction|].
  destruct t; [contradiction|].
  cbn. rewrite length_app. cbn. rewrite length_app. cbn. lia.
Qed.

Lemma not_space_or_at_spec (c : N) :
  not_space_or_at c = true -> is_space c = false /\ c <> at_sign.
Proof.
  unfold not_space_or_at. intro H. apply negb_true_iff, orb_false_iff in H.
  destruct H as [H1 H2]. split; [exact H1 | now apply N.eqb_neq].
Qed.

Lemma Forall_not_space (s : jsstring) :
  Forall (fun c => not_space_or_at c = true) s ->
  Forall (fun c => is_space c = false) s
  /\ count_occ N.eq_dec s at_sign = 0%nat.
Proof.
  induction 1 as [|c s Hc _ [IH1 IH2]]; [split; [constructor | reflexivity]|].
  apply not_space_or_at_spec in Hc. destruct Hc as [Hs Ha].
  split; [now constructor|].
  cbn. destruct (N.eq_dec c at_sign); [contradiction | exact IH2].
Qed.

Lemma valid_email_shape (email : jsstring) :
  isValidEmail email = true ->
  email <> []
  /\ Forall (fun c => is_space c = false) email
  /\ count_occ N.eq_dec email at_sign = 1%nat.
Proof.
  intro H. apply isValidEmail_shape_aux in H.
  destruct H as [l [d [t [-> [Hl [Hd [Ht [Fl [Fd Ft]]]]]]]]].
  apply Forall_not_space in Fl, Fd, Ft.
  destruct Fl as [Fl Cl], Fd as [Fd Cd], Ft as [Ft Ct].
  split; [destruct l; [contradiction | discriminate]|].
  split.
  - apply Forall_app. split; [exact Fl|].
    constructor; [reflexivity|].
    apply Forall_app. split; [exact Fd|]. constructor; [reflexivity | exact Ft].
  - rewrite count_occ_app, Cl. cbn.
    rewrite count_occ_app, Cd. cbn. now rewrite Ct.
Qed.

Lemma trim_without_spaces (s : jsstring) :
  Forall (fun c => is_space c = false) s -> trim s = s.
Proof.
  intro H.
  assert (Hstart : forall u, Forall (fun c => is_space c = false) u ->
                             trimStart u = u).
  { intros u Hu. destruct Hu as [|c u Hc _]; [reflexivity|]. cbn [trimStart]. now rewrite Hc. }
  unfold trim. rewrite (Hstart s H).
  rewrite (Hstart (rev s)) by now apply Forall_rev.
  apply rev_involutive.
Qed.

Lemma space_breaks_email (email : jsstring) (c : N) :
  is_space c = true -> In c email -> isValidEmail email = false.
Proof.
  intros Hc Hin. destruct (isValidEmail email) eqn:E; [|reflexivity].
  apply valid_email_shape in E. destruct E as [_ [F _]].
  rewrite Forall_forall in F. rewrite (F c Hin) in Hc. discriminate.
Qed.

(** X14: [handleSubmit] calls [authAPI.login] exactly when the email
    passes [isValidEmail] and the password is not blank, and then with the
    form's own values: the email has no whitespace, one '@', and is its own
    trim; 'Please fill in all fields' is shown exactly when the trimmed
    email or password is empty; an email with a whitespace character
    anywhere, leading or trailing included, is never sent. *)
Theorem handleSubmit_sends_only_validated_untrimmed_emails :
  forall formData : FormData,
    (forall e p, handleSubmit formData = CallLogin e p ->
       e = email formData /\ p = password formData
       /\ isValidEmail e = true
       /\ trim e = e
       /\ Forall (fun c => is_space c = false) e
       /\ count_occ N.eq_dec e at_sign = 1%nat
       /\ trim p <> [])
    /\ (isValidEmail (email formData) = true /\ trim (password formData) <> []
        <-> handleSubmit formData
            = CallLogin (email formData) (password formData))
    /\ (handleSubmit formData = ShowError "Please fill in all fields"
        <-> trim (email formData) = [] \/ trim (password formData) = [])
    /\ (forall c, is_space c = true -> In c (email formData) ->
          exists message, handleSubmit formData = ShowError message).
Proof.
  intro formData.
  assert (Hblank : forall s, blank s = true <-> trim s = []).
  { intro s. unfold blank. destruct (trim s); split; congruence. }
  assert (Hvalid : isValidEmail (email formData) = true ->
                   blank (email formData) = false).
  { intro H. apply valid_email_shape in H. destruct H as [Hne [F _]].
    unfold blank. rewrite (trim_without_spaces _ F).
    destruct (email formData); [contradiction | reflexivity]. }
  assert (Hcall : handleSubmit formData
                  = CallLogin (email formData) (password formData)
                  <-> isValidEmail (email formData) = true
                      /\ trim (password formData) <> []).
  { unfold handleSubmit. split.
    - destruct (blank (email formData) || blank (password formData)) eqn:B;
        [discriminate|].
      destruct (isValidEmail (email formData)); [|discriminate].
      intros _. split; [reflexivity|].
      apply orb_false_iff in B. destruct B as [_ B].
      intro E. apply Hblank in E. congruence.
    - intros [V P]. rewrite (Hvalid V), V.
      destruct (blank (password formData)) eqn:B; [|reflexivity].
      apply Hblank in B. contradiction. }
  split; [|split; [|split]].
  - intros e p H.
    assert (He : e = email formData /\ p = password formData).
    { unfold handleSubmit in H.
      destruct (blank (email formData) || blank (password formData));
        [discriminate|].
      destruct (isValidEmail (email formData)); [|discriminate].
      injection H as <- <-. auto. }
    destruct He as [-> ->]. apply Hcall in H. destruct H as [V P].
    destruct (valid_email_shape _ V) as [_ [F C]].
    repeat split; auto. now apply trim_without_spaces.
  - split; intro H; now apply Hcall.
  - unfold handleSubmit.
    destruct (blank (email formData)) eqn:Be; cbn.
    + split; [intros _; left; now apply Hblank | reflexivity].
    + destruct (blank (password formData)) eqn:Bp; cbn.
      * split; [intros _; right; now apply Hblank | reflexivity].
      * split.
        -- destruct (isValidEmail (email formData)); discriminate.
        -- intros [E | E]; apply Hblank in E; congruence.
  - intros c Hc Hin. unfold handleSubmit.
    rewrite (space_breaks_email _ c Hc Hin).
    destruct (blank (email formData) || blank (password formData));
      eexists; reflexivity.
Qed.

End LoginProperties.

Example isValidEmail_samples :
  isValidEmail_on "admin@company.com" = true
  /\ isValidEmail_on "marketing@company.com" = true
  /\ isValidEmail_on "finance@company.com" = true
  /\ isValidEmail_on "a@b" = false
  /\ isValidEmail_on "a@@b.c" = false
  /\ isValidEmail_on " admin@company.com" = false
  /\ isValidEmail_on "admin@company." = false
  /\ Login.trim (code_units "  admin@company.com ") = code_units "admin@company.com".
Proof. repeat split. Qed.

(** * Properties of CampaignChart.jsx *)

Section HexProperties.

Import CampaignChart.
Local Open Scope N_scope.

Lemma hex_char_digit (upper : bool) (d : N) :
  d < 16 ->
  hex_digit (hex_char upper d) = true
  /\ digit_value (hex_char upper d) = d
  /\ Ascii.eqb (hex_char upper d) "#" = false.
Proof.
  intro H.
  assert (Hall : forallb (fun n =>
                   let c := hex_char upper (N.of_nat n) in
                   hex_digit c && (digit_value c =? N.of_nat n)
                   && negb (Ascii.eqb c "#")) (seq 0 16) = true)
    by (destruct upper; vm_compute; reflexivity).
  rewrite forallb_forall in Hall.
  specialize (Hall (N.to_nat d)).
  rewrite N2Nat.id in Hall.
  assert (Hin : In (N.to_nat d) (seq 0 16)) by (apply in_seq; lia).
  apply Hall in Hin. cbv zeta in Hin.
  apply andb_true_iff in Hin. destruct Hin as [Hin H3].
  apply andb_true_iff in Hin. destruct Hin as [H1 H2].
  apply N.eqb_eq in H2. apply negb_true_iff in H3. auto.
Qed.

Lemma digit_value_below_16 (c : ascii) :
  hex_digit c = true -> digit_value c < 16.
Proof.
  unfold hex_digit, digit_value, is_lower_hex, is_upper_hex, is_digit.
  destruct (48 <=? N_of_ascii c) eqn:A1; destruct (N_of_ascii c <=? 57) eqn:A2;
    destruct (97 <=? N_of_ascii c) eqn:B1; destruct (N_of_ascii c <=? 102) eqn:B2;
    destruct (65 <=? N_of_ascii c) eqn:C1; destruct (N_of_ascii c <=? 70) eqn:C2;
    cbn; intro H; try discriminate;
    rewrite ?N.leb_le, ?N.leb_gt in *; lia.
Qed.

Lemma parseInt16_below_256 (hi lo : ascii) :
  hex_digit hi = true -> hex_digit lo = true -> parseInt16 hi lo < 256.
Proof.
  intros H1 H2. apply digit_value_below_16 in H1, H2.
  unfold parseInt16. lia.
Qed.

Lemma hex_pair_parses (upper : bool) (n : N) :
  n < 256 ->
  exists hi lo, hex_pair upper n = [hi; lo]
                /\ hex_digit hi = true /\ hex_digit lo = true
                /\ Ascii.eqb hi "#" = false
                /\ parseInt16 hi lo = n.
Proof.
  intro H.
  assert (Hq : n / 16 < 16) by (apply N.Div0.div_lt_upper_bound; lia).
  assert (Hr : n mod 16 < 16) by (apply N.mod_lt; lia).
  destruct (hex_char_digit upper _ Hq) as [Q1 [Q2 Q3]].
  destruct (hex_char_digit upper _ Hr) as [R1 [R2 _]].
  exists (hex_char upper (n / 16)), (hex_char upper (n mod 16)).
  repeat split; auto.
  unfold parseInt16. rewrite Q2, R2.
  symmetry. apply N.div_mod. lia.
Qed.

Lemma lang_two_hex (s : list ascii) :
  Regex.lang two_hex s
  <-> exists hi lo, s = [hi; lo] /\ hex_digit hi = true /\ hex_digit lo = true.
Proof.
  unfold two_hex. rewrite lang_cat_chr. split.
  - intros [hi [s' [-> [Hh Hl]]]]. apply lang_chr_iff in Hl.
    destruct Hl as [lo [-> Hl]]. eauto.
  - intros [hi [lo [-> [Hh Hl]]]]. exists hi, [lo].
    repeat split; auto. now constructor.
Qed.

Lemma lang_hexRegex (s : list ascii) :
  Regex.lang hexRegex s
  <-> exists r1 r2 g1 g2 b1 b2,
        (s = [r1; r2; g1; g2; b1; b2] \/ s = ["#"%char; r1; r2; g1; g2; b1; b2])
        /\ hex_digit r1 = true /\ hex_digit r2 = true
        /\ hex_digit g1 = true /\ hex_digit g2 = true
        /\ hex_digit b1 = true /\ hex_digit b2 = true.
Proof.
  unfold hexRegex, Regex.Opt. split.
  - intro H. apply lang_cat in H. destruct H as [s0 [s1 [-> [H0 H1]]]].
    apply lang_cat in H1. destruct H1 as [sr [s2 [-> [Hr H2]]]].
    apply lang_cat in H2. destruct H2 as [sg [sb [-> [Hg Hb]]]].
    apply lang_two_hex in Hr, Hg, Hb.
    destruct Hr as [r1 [r2 [-> [Hr1 Hr2]]]].
    destruct Hg as [g1 [g2 [-> [Hg1 Hg2]]]].
    destruct Hb as [b1 [b2 [-> [Hb1 Hb2]]]].
    exists r1, r2, g1, g2, b1, b2.
    split; [|auto 10].
    apply lang_alt in H0. destruct H0 as [H0 | H0].
    + inversion H0; subst. left. reflexivity.
    + apply lang_chr_iff in H0. destruct H0 as [c [-> Hc]].
      apply Ascii.eqb_eq in Hc. subst c. right. reflexivity.
  - intros [r1 [r2 [g1 [g2 [b1 [b2 [Hs [Hr1 [Hr2 [Hg1 [Hg2 [Hb1 Hb2]]]]]]]]]]]].
    assert (Hrest : Regex.lang (Regex.Cat two_hex (Regex.Cat two_hex two_hex))
                               [r1; r2; g1; g2; b1; b2]).
    { apply lang_cat. exists [r1; r2], [g1; g2; b1; b2].
      split; [reflexivity|]. split; [apply lang_two_hex; eauto|].
      apply lang_cat. exists [g1; g2], [b1; b2].
      split; [reflexivity|]. split; apply lang_two_hex; eauto. }
    destruct Hs as [-> | ->].
    + apply lang_cat. exists [], [r1; r2; g1; g2; b1; b2].
      split; [reflexivity|]. split; [|exact Hrest].
      apply Regex.lang_alt_l. constructor.
    + apply lang_cat. exists ["#"%char], [r1; r2; g1; g2; b1; b2].
      split; [reflexivity|]. split; [|exact Hrest].
      apply Regex.lang_alt_r. now constructor.
Qed.

Lemma hex_digit_not_hash (c : ascii) :
  hex_digit c = true -> Ascii.eqb c "#" = false.
Proof.
  intro H. apply Ascii.eqb_neq. intros ->. vm_compute in H. discriminate.
Qed.

Lemma hexToRgb_spec (hex : string) (rgb : Rgb) :
  hexToRgb hex = Some rgb
  <-> exists r1 r2 g1 g2 b1 b2,
        (list_ascii_of_string hex = [r1; r2; g1; g2; b1; b2]
         \/ list_ascii_of_string hex = ["#"%char; r1; r2; g1; g2; b1; b2])
        /\ hex_digit r1 = true /\ hex_digit r2 = true
        /\ hex_digit g1 = true /\ hex_digit g2 = true
        /\ hex_digit b1 = true /\ hex_digit b2 = true
        /\ rgb = {| r := parseInt16 r1 r2; g := parseInt16 g1 g2;
                    b := parseInt16 b1 b2 |}.
Proof.
  unfold hexToRgb. split.
  - destruct (Regex.test hexRegex (list_ascii_of_string hex)) eqn:T;
      [|discriminate].
    apply test_lang, lang_hexRegex in T.
    destruct T as [r1 [r2 [g1 [g2 [b1 [b2 [Hs [Hr1 [Hr2 [Hg1 [Hg2 [Hb1 Hb2]]]]]]]]]]]].
    intro H. exists r1, r2, g1, g2, b1, b2.
    split; [exact Hs|]. do 6 (split; [assumption|]).
    destruct Hs as [E | E]; rewrite E in H.
    + rewrite (hex_digit_not_hash _ Hr1) in H. now injection H as <-.
    + cbn in H. now injection H as <-.
  - intros [r1 [r2 [g1 [g2 [b1 [b2 [Hs [Hr1 [Hr2 [Hg1 [Hg2 [Hb1 [Hb2 ->]]]]]]]]]]]]].
    assert (T : Regex.test hexRegex (list_ascii_of_string hex) = true).
    { apply test_lang, lang_hexRegex. exists r1, r2, g1, g2, b1, b2. auto 10. }
    rewrite T. destruct Hs as [E | E]; rewrite E.
    + now rewrite (hex_digit_not_hash _ Hr1).
    + reflexivity.
Qed.

(** X15: [hexToRgb] reads back every colour: for channels below 256,
    written as six hexadecimal digits in lower or upper case, with or
    without the leading '#', it returns those three channels. *)
Theorem hexToRgb_reads_back_every_colour :
  forall (hash upper : bool) (red green blue : N),
    red < 256 -> green < 256 -> blue < 256 ->
    hexToRgb (hex_colour hash upper red green blue)
    = Some {| r := red; g := green; b := blue |}.
Proof.
  intros hash upper red green blue Hr Hg Hb.
  destruct (hex_pair_parses upper red Hr) as [r1 [r2 [Er [R1 [R2 [R3 Pr]]]]]].
  destruct (hex_pair_parses upper green Hg) as [g1 [g2 [Eg [G1 [G2 [_ Pg]]]]]].
  destruct (hex_pair_parses upper blue Hb) as [b1 [b2 [Eb [B1 [B2 [_ Pb]]]]]].
  apply hexToRgb_spec. exists r1, r2, g1, g2, b1, b2.
  split.
  - unfold hex_colour. rewrite list_ascii_of_string_of_list_ascii, Er, Eg, Eb.
    destruct hash; [right | left]; reflexivity.
  - do 6 (split; [assumption|]). now rewrite Pr, Pg, Pb.
Qed.

Lemma hexToRgb_reads_back_every_colour_witness :
  (245 < 256 /\ 101 < 256 /\ 101 < 256)
  /\ hex_colour true false 245 101 101 = "#f56565"%string
  /\ hexToRgb "#f56565" = Some {| r := 245; g := 101; b := 101 |}.
Proof.
  assert (H1 : 245 < 256) by reflexivity.
  assert (H2 : 101 < 256) by reflexivity.
  split; [auto|]. split; [reflexivity|].
  exact (hexToRgb_reads_back_every_colour true false 245 101 101 H1 H2 H2).
Defined.

(** X16: when [hexToRgb] returns a colour, its channels are below 256 and
    the text has six or seven characters; [generateColors] then keeps the
    text as the solid colour and builds the two rgba texts from the
    channels. *)
Theorem hexToRgb_channels_are_bytes :
  forall (hex : string) (rgb : Rgb),
    hexToRgb hex = Some rgb ->
    r rgb < 256 /\ g rgb < 256 /\ b rgb < 256
    /\ (String.length hex = 6%nat \/ String.length hex = 7%nat)
    /\ generateColors hex = Palette hex (rgba rgb "0.8") (rgba rgb "0.1")
    /\ solid (generateColors hex) = JStr hex.
Proof.
  intros hex rgb H.
  assert (Hg : generateColors hex = Palette hex (rgba rgb "0.8") (rgba rgb "0.1"))
    by (unfold generateColors; now rewrite H).
  apply hexToRgb_spec in H.
  destruct H as [r1 [r2 [g1 [g2 [b1 [b2 [Hs [Hr1 [Hr2 [Hg1 [Hg2 [Hb1 [Hb2 ->]]]]]]]]]]]]].
  cbn [r g b].
  split; [now apply parseInt16_below_256|].
  split; [now apply parseInt16_below_256|].
  split; [now apply parseInt16_below_256|].
  split.
  - rewrite <- (string_of_list_ascii_of_string hex).
    destruct Hs as [-> | ->]; [left | right]; reflexivity.
  - split; [exact Hg | now rewrite Hg].
Qed.

Lemma hexToRgb_channels_are_bytes_witness :
  hexToRgb "48BB78" = Some {| r := 72; g := 187; b := 120 |}
  /\ generateColors "48BB78"
     = Palette "48BB78" "rgba(72, 187, 120, 0.8)" "rgba(72, 187, 120, 0.1)".
Proof.
  assert (H : hexToRgb "48BB78" = Some {| r := 72; g := 187; b := 120 |})
    by reflexivity.
  split; [exact H|].
  exact (proj1 (proj2 (proj2 (proj2 (proj2
           (hexToRgb_channels_are_bytes "48BB78" _ H)))))).
Defined.

End HexProperties.

Section DashboardChartProperties.

Import CampaignChart.
Local Open Scope string_scope.

Lemma last30Days_length (kpiData : option KpiData.t) :
  List.length (last30Days kpiData)
  = Nat.min 30 (List.length (chartData kpiData)).
Proof.
  unfold last30Days. rewrite slice_last_30, length_rev, length_skipn. lia.
Qed.

Lemma charts_members (kpiData : option KpiData.t) (role : jsval) (rt : Runtime)
      (c : ChartProps) :
  In c (charts kpiData role rt) ->
  c = chart (last30Days kpiData) "Daily Ad Spend" "line" "spend" "#f56565"
            "Amount ()" rt
  \/ c = chart (last30Days kpiData) "Daily Clicks" "line" "clicks" "#48bb78"
               "Clicks" rt
  \/ c = chart (last30Days kpiData) "Daily Impressions" "bar" "impressions"
               "#63b3ed" "Impressions" rt
  \/ c = chart (last30Days kpiData) "Daily Conversions" "bar" "conversions"
               "#ed8936" "Conversions" rt.
Proof.
  unfold charts. intro Hin.
  repeat (apply in_app_or in Hin; destruct Hin as [Hin | Hin]);
    try (destruct (_ || _)%bool); try (destruct (strict_eq_str role _));
    cbn in Hin; decompose [or] Hin; subst; try contradiction; auto.
Qed.

(** X17: each chart of the dashboard shows 'No data available' when
    google_ads has no history; otherwise it is a line or bar chart with one
    date label per point, min(30, n) of each, all points own fields of the
    entries, the border in the chart's colour; its axis ticks and tooltips
    print the plain number: no chart of the dashboard, the spend chart
    included, gets the '$' or '%' formats. *)
Theorem dashboard_charts_plot_one_point_per_label :
  forall (kpiData : option KpiData.t) (role : jsval) (rt : Runtime)
         (c : ChartProps),
    In c (charts kpiData role rt) ->
    let n := List.length (chartData kpiData) in
    (n = 0%nat -> CampaignChart c = NoData (chart_title c))
    /\ (n <> 0%nat ->
        exists labels dataset,
          (CampaignChart c = LineChart labels dataset
           \/ CampaignChart c = BarChart labels dataset)
          /\ labels = map (fun item => toLocaleDateString rt
                                         (HistoricalEntry.date item))
                          (last30Days kpiData)
          /\ List.length labels = Nat.min 30 n
          /\ List.length (points dataset) = Nat.min 30 n
          /\ (forall p, In p (points dataset) -> exists v, p = Value v)
          /\ borderColor dataset = JStr (color c)
          /\ exists shade, backgroundColor dataset = JStr shade)
    /\ (forall value, tick (dataKey c) value rt = numberToLocaleString rt value)
    /\ (forall label value,
          tooltip_label (dataKey c) label value rt
          = label ++ ": " ++ numberToLocaleString rt value).
Proof.
  intros kpiData role rt c Hin n.
  pose proof (last30Days_length kpiData) as Hlen. fold n in Hlen.
  apply charts_members in Hin.
  assert (Hdata : chart_data c = last30Days kpiData
                  /\ chart_labels c
                     = map (fun item => toLocaleDateString rt
                                          (HistoricalEntry.date item))
                           (last30Days kpiData))
    by (decompose [or] Hin; subst; split; reflexivity).
  destruct Hdata as [Hd Hl].
  split; [|split; [|split]].
  - intro Hn. unfold CampaignChart. rewrite Hd, Hlen, Hn. reflexivity.
  - intro Hn.
    assert (Hpos : (List.length (chart_data c) =? 0)%nat = false).
    { rewrite Hd, Hlen. apply Nat.eqb_neq. lia. }
    assert (Hlabels : chart_labels_of c = chart_labels c).
    { unfold chart_labels_of. rewrite Hl, length_map, Hlen.
      destruct (Nat.ltb_spec 0 (Nat.min 30 n)); [reflexivity | lia]. }
    exists (chart_labels c), (dataset_of c).
    split.
    { unfold CampaignChart. rewrite Hpos, Hlabels.
      destruct (String.eqb (chart_type c) "line"); auto. }
    split; [exact Hl|].
    split; [now rewrite Hl, length_map|].
    split; [unfold dataset_of; cbn [points]; now rewrite length_map, Hd|].
    split.
    { intros p Hp. unfold dataset_of in Hp; cbn [points] in Hp.
      apply in_map_iff in Hp. destruct Hp as [item [<- _]].
      decompose [or] Hin; subst; cbn; eexists; reflexivity. }
    decompose [or] Hin; subst; split; try reflexivity; eexists; reflexivity.
  - intro value. decompose [or] Hin; subst; reflexivity.
  - intros label value. decompose [or] Hin; subst; reflexivity.
Qed.

Lemma dashboard_charts_plot_one_point_per_label_witness :
  In (chart (last30Days (Some two_days)) "Daily Conversions" "bar" "conversions"
            "#ed8936" "Conversions" sample_runtime)
     (charts (Some two_days) (JStr "finance") sample_runtime)
  /\ tick "conversions" 2 sample_runtime = numberToLocaleString sample_runtime 2.
Proof.
  assert (Hin : In (chart (last30Days (Some two_days)) "Daily Conversions" "bar"
                          "conversions" "#ed8936" "Conversions" sample_runtime)
                   (charts (Some two_days) (JStr "finance") sample_runtime))
    by (cbn; auto).
  split; [exact Hin|].
  exact (proj1 (proj2 (proj2
           (dashboard_charts_plot_one_point_per_label (Some two_days)
              (JStr "finance") sample_runtime _ Hin))) 2%float).
Defined.

Example dashboard_chart_of_two_days :
  CampaignChart (chart (last30Days (Some two_days)) "Daily Ad Spend" "line"
                       "spend" "#f56565" "Amount ()" sample_runtime)
  = LineChart ["Invalid Date"; "Invalid Date"]
      {| label := "Daily Ad Spend";
         points := [Value (JNum 12); Value (JNum 10)];
         borderColor := JStr "#f56565";
         backgroundColor := JStr "rgba(245, 101, 101, 0.1)";
         fill := true |}.
Proof. reflexivity. Qed.

End DashboardChartProperties.
